(** * Saltcheck: the test runner of [salt/_modules/saltcheck.py]

    A shallow embedding of the assertion engine, the type coercion, the test
    validator, the test executor ([SaltCheck]) and the test file loader
    ([StateTestLoader]), followed by the properties proved about them.

    Conventions of the embedding.
    - Python values are the values a test file and a Salt return can hold
      after serialisation: None, booleans, integers, text, lists and
      dictionaries (type [value]).  Floating point numbers are left out.
    - The semantics is Python 3: [str] is text, ordering two values of
      unrelated types raises [TypeError].
    - Code that can raise returns a [result]: [Ok v] or [Raise e].
    - The external collaborators ([salt_lc.cmd], [sys.list_modules],
      [sys.list_functions], the renderer, the file system and the clock) are
      fields of an environment record or arguments.
    - A text is a sequence of characters of one byte; the builtins that
      depend on the character set ([repr], [int], [sort]) are exact on
      ASCII texts.
    - [_is_valid_module] and [_is_valid_function] are memoized in the
      source; the collaborators of the model are functions, so a second
      call gives what the first gave and the cache is left out.
    - [run_test] updates the [kwargs] dictionary of the test definition in
      place; the model passes the updated dictionary on and leaves the test
      definition as it was, which [run_test] does not read again.
    - The two readings of [time.time()] are integers that count
      ten-thousandths of a second, and a duration is their difference; the
      source rounds the difference of two floating point readings to four
      decimals, which the model does not follow digit for digit.
    - [os.sep] is the slash. *)

From Stdlib Require Import ZArith String Ascii List Bool Lia DecimalString.
From Stdlib Require Import Permutation Sorted DecimalZ DecimalPos.
Import ListNotations.
Local Open Scope list_scope.
Local Open Scope string_scope.

(** ** Exceptions and the error monad *)

Inductive exn : Type :=
| AssertionError (msg : string)
| ValueError
| TypeError
| AttributeError
| KeyError
| SaltException
| OtherError (what : string).

Definition is_ValueError (e : exn) : bool :=
  match e with
  | ValueError => true
  | _ => false
  end.

Definition is_SaltException (e : exn) : bool :=
  match e with
  | SaltException => true
  | _ => false
  end.

Inductive result (A : Type) : Type :=
| Ok (a : A)
| Raise (e : exn).

Arguments Ok {A} a.
Arguments Raise {A} e.

Definition bind {A B : Type} (c : result A) (k : A -> result B) : result B :=
  match c with
  | Ok a => k a
  | Raise e => Raise e
  end.

Notation "x <- c ;; k" := (bind c (fun x => k))
  (at level 61, c at next level, right associativity).

(** [try: c except E as e: h e], where [catches] tells the exceptions of
    class [E]. *)
Definition try_except {A : Type} (c : result A) (catches : exn -> bool)
    (h : exn -> result A) : result A :=
  match c with
  | Ok a => Ok a
  | Raise e => if catches e then h e else Raise e
  end.

(** ** Python values and the builtins the module uses *)

Module Py.

Set Warnings "-register-all".

Inductive value : Type :=
| VNone
| VBool (b : bool)
| VInt (z : Z)
| VStr (s : string)
| VList (l : list value)
| VDict (d : list (value * value)).

(** A dictionary is the list of its items in insertion order; its keys are
    hashable values, pairwise different for [==]. *)
Definition dict : Type := list (value * value).

(** [bool(v)], the truth value of [v]. *)
Definition truthy (v : value) : bool :=
  match v with
  | VNone => false
  | VBool b => b
  | VInt z => negb (Z.eqb z 0)
  | VStr s => negb (String.eqb s "")
  | VList l => match l with [] => false | _ => true end
  | VDict d => match d with [] => false | _ => true end
  end.

(** [a == b].  A boolean is an integer (True == 1); dictionaries compare
    without regard to order. *)
Fixpoint py_eq (a b : value) {struct a} : bool :=
  match a, b with
  | VNone, VNone => true
  | VBool x, VBool y => Bool.eqb x y
  | VBool x, VInt y => Z.eqb (Z.b2z x) y
  | VInt x, VBool y => Z.eqb x (Z.b2z y)
  | VInt x, VInt y => Z.eqb x y
  | VStr s, VStr t => String.eqb s t
  | VList l, VList m =>
      (fix go (l m : list value) {struct l} : bool :=
         match l, m with
         | [], [] => true
         | x :: l', y :: m' => py_eq x y && go l' m'
         | _, _ => false
         end) l m
  | VDict d, VDict e =>
      Nat.eqb (List.length d) (List.length e) &&
      (fix all (d : list (value * value)) {struct d} : bool :=
         match d with
         | [] => true
         | (k, v) :: d' =>
             (fix find (e : list (value * value)) {struct e} : bool :=
                match e with
                | [] => false
                | (k', v') :: e' => if py_eq k k' then py_eq v v' else find e'
                end) e && all d'
         end) d
  | _, _ => false
  end.

(** Lists and dictionaries are not hashable. *)
Definition hashable (v : value) : bool :=
  match v with
  | VList _ | VDict _ => false
  | _ => true
  end.

(** [d.get(k)] on a hashable key: [None] stands for a missing key. *)
Fixpoint dict_find (k : value) (d : dict) : option value :=
  match d with
  | [] => None
  | (k', v) :: d' => if py_eq k k' then Some v else dict_find k d'
  end.

(** [d.get(k, default)]. *)
Definition dict_get (k : value) (d : dict) (default : value) : value :=
  match dict_find k d with
  | Some v => v
  | None => default
  end.

(** [k in d.keys()]. *)
Definition dict_has (k : value) (d : dict) : bool :=
  match dict_find k d with
  | Some _ => true
  | None => false
  end.

(** [d[k] = v]: an existing key keeps its place and takes the new value,
    a new key goes to the end. *)
Fixpoint dict_set (k v : value) (d : dict) : dict :=
  match d with
  | [] => [(k, v)]
  | (k', v') :: d' =>
      if py_eq k k' then (k', v) :: d' else (k', v') :: dict_set k v d'
  end.

(** [d.pop(k)] on a key that is present. *)
Fixpoint dict_pop (k : value) (d : dict) : dict :=
  match d with
  | [] => []
  | (k', v') :: d' => if py_eq k k' then d' else (k', v') :: dict_pop k d'
  end.

Definition dict_keys (d : dict) : list value := map fst d.

(** *** Text forms: [repr(v)] and [str(v)] *)

Definition quote1 : ascii := ascii_of_nat 39.
Definition quote2 : ascii := ascii_of_nat 34.
Definition backslash : ascii := ascii_of_nat 92.

Fixpoint contains_char (c : ascii) (s : string) : bool :=
  match s with
  | EmptyString => false
  | String c' s' => Ascii.eqb c c' || contains_char c s'
  end.

Definition hex_digit (n : nat) : ascii :=
  if Nat.ltb n 10 then ascii_of_nat (48 + n) else ascii_of_nat (87 + n).

(** One character of a quoted text.  Bytes from 128 on are copied: the
    texts of the model are ASCII or UTF-8 encoded printable characters. *)
Definition repr_char (q c : ascii) : string :=
  let n := nat_of_ascii c in
  if Ascii.eqb c backslash then String backslash (String backslash "")
  else if Ascii.eqb c q then String backslash (String q "")
  else if Nat.eqb n 9 then String backslash "t"
  else if Nat.eqb n 10 then String backslash "n"
  else if Nat.eqb n 13 then String backslash "r"
  else if Nat.ltb n 32 || Nat.eqb n 127 then
    String backslash
      (String "x" (String (hex_digit (Nat.div n 16))
                     (String (hex_digit (Nat.modulo n 16)) "")))
  else String c "".

Fixpoint repr_chars (q : ascii) (s : string) : string :=
  match s with
  | EmptyString => ""
  | String c s' => repr_char q c ++ repr_chars q s'
  end.

(** [repr] of a text: single quotes, unless the text has a single quote and
    no double quote. *)
Definition repr_str (s : string) : string :=
  let q :=
    if contains_char quote1 s && negb (contains_char quote2 s)
    then quote2 else quote1 in
  String q (repr_chars q s ++ String q "").

Definition str_of_Z (z : Z) : string := NilZero.string_of_int (Z.to_int z).

Fixpoint py_repr (v : value) : string :=
  match v with
  | VNone => "None"
  | VBool true => "True"
  | VBool false => "False"
  | VInt z => str_of_Z z
  | VStr s => repr_str s
  | VList l =>
      "[" ++
      (fix items (l : list value) : string :=
         match l with
         | [] => ""
         | x :: l' =>
             match l' with
             | [] => py_repr x
             | _ => py_repr x ++ ", " ++ items l'
             end
         end) l ++ "]"
  | VDict d =>
      "{" ++
      (fix items (d : list (value * value)) : string :=
         match d with
         | [] => ""
         | (k, x) :: d' =>
             match d' with
             | [] => py_repr k ++ ": " ++ py_repr x
             | _ => py_repr k ++ ": " ++ py_repr x ++ ", " ++ items d'
             end
         end) d ++ "}"
  end.

(** [str(v)], also what ["{0}".format(v)] inserts. *)
Definition py_str (v : value) : string :=
  match v with
  | VStr s => s
  | _ => py_repr v
  end.

(** *** [int(text)] *)

(** The blanks [int] skips around the digits: tab, line feed, vertical
    tab, form feed, carriage return and the space. *)
Definition is_space (c : ascii) : bool :=
  let n := nat_of_ascii c in
  (Nat.leb 9 n && Nat.leb n 13) || Nat.eqb n 32.

Definition is_digit (c : ascii) : bool :=
  let n := nat_of_ascii c in Nat.leb 48 n && Nat.leb n 57.

Fixpoint lstrip (l : list ascii) : list ascii :=
  match l with
  | c :: l' => if is_space c then lstrip l' else l
  | [] => []
  end.

Definition strip (l : list ascii) : list ascii :=
  rev (lstrip (rev (lstrip l))).

(** Decimal digits, single underscores allowed between two digits. *)
Fixpoint digits_val (acc : Z) (after_digit : bool) (l : list ascii)
  : option Z :=
  match l with
  | [] => if after_digit then Some acc else None
  | c :: l' =>
      if is_digit c
      then digits_val (acc * 10 + Z.of_nat (nat_of_ascii c - 48)) true l'
      else if Ascii.eqb c "_" && after_digit
           then digits_val acc false l'
           else None
  end.

Definition int_of_text (s : string) : option Z :=
  match strip (list_ascii_of_string s) with
  | c :: l =>
      if Ascii.eqb c "-" then option_map Z.opp (digits_val 0 false l)
      else if Ascii.eqb c "+" then digits_val 0 false l
      else digits_val 0 false (c :: l)
  | [] => None
  end.

(** *** Constructors called through [type(returned)(expected)] *)

(** [int(v)]. *)
Definition py_int (v : value) : result value :=
  match v with
  | VBool b => Ok (VInt (Z.b2z b))
  | VInt z => Ok (VInt z)
  | VStr s =>
      match int_of_text s with
      | Some z => Ok (VInt z)
      | None => Raise ValueError
      end
  | _ => Raise TypeError
  end.

(** The one-character texts of a text. *)
Fixpoint chars (s : string) : list value :=
  match s with
  | EmptyString => []
  | String c s' => VStr (String c "") :: chars s'
  end.

(** The elements [iter(v)] yields. *)
Definition py_iter (v : value) : result (list value) :=
  match v with
  | VStr s => Ok (chars s)
  | VList l => Ok l
  | VDict d => Ok (dict_keys d)
  | _ => Raise TypeError
  end.

(** [list(v)]. *)
Definition py_list (v : value) : result value :=
  l <- py_iter v ;; Ok (VList l).

(** [dict(items)] for a sequence of key-value pairs, added in order. *)
Fixpoint dict_of_pairs (acc : dict) (l : list value) : result dict :=
  match l with
  | [] => Ok acc
  | x :: l' =>
      kv <- py_iter x ;;
      match kv with
      | [k; v] =>
          if hashable k then dict_of_pairs (dict_set k v acc) l'
          else Raise TypeError
      | _ => Raise ValueError
      end
  end.

(** [dict(v)]. *)
Definition py_dict (v : value) : result value :=
  match v with
  | VDict d => Ok (VDict d)
  | _ =>
      l <- py_iter v ;;
      d <- dict_of_pairs [] l ;;
      Ok (VDict d)
  end.

(** [type(None)(v)]: NoneType takes no argument. *)
Definition py_nonetype (v : value) : result value := Raise TypeError.

(** *** Membership and ordering *)

(** [x in c]. *)
Definition py_in (x c : value) : result bool :=
  match c with
  | VStr s =>
      match x with
      | VStr t =>
          Ok (match String.index 0 t s with Some _ => true | None => false end)
      | _ => Raise TypeError
      end
  | VList l => Ok (existsb (py_eq x) l)
  | VDict d => if hashable x then Ok (dict_has x d) else Raise TypeError
  | _ => Raise TypeError
  end.

Inductive cmp_op : Type := OpLt | OpLe | OpGt | OpGe.

Definition cmp_Z (op : cmp_op) (x y : Z) : bool :=
  match op with
  | OpLt => Z.ltb x y
  | OpLe => Z.leb x y
  | OpGt => Z.ltb y x
  | OpGe => Z.leb y x
  end.

Definition cmp_text (op : cmp_op) (s t : string) : bool :=
  match op with
  | OpLt => String.ltb s t
  | OpLe => String.leb s t
  | OpGt => String.ltb t s
  | OpGe => String.leb t s
  end.

Definition as_int (v : value) : option Z :=
  match v with
  | VBool b => Some (Z.b2z b)
  | VInt z => Some z
  | _ => None
  end.

(** [a < b], [a <= b], [a > b], [a >= b]: numbers with numbers, texts with
    texts, lists with lists at their first differing elements. *)
Fixpoint py_compare (op : cmp_op) (a b : value) {struct a} : result bool :=
  match a, b with
  | VList l, VList m =>
      (fix go (l m : list value) {struct l} : result bool :=
         match l, m with
         | x :: l', y :: m' =>
             if py_eq x y then go l' m' else py_compare op x y
         | _, _ =>
             Ok (cmp_Z op (Z.of_nat (List.length l)) (Z.of_nat (List.length m)))
         end) l m
  | VStr s, VStr t => Ok (cmp_text op s t)
  | _, _ =>
      match as_int a, as_int b with
      | Some x, Some y => Ok (cmp_Z op x y)
      | _, _ => Raise TypeError
      end
  end.

End Py.

(** ** The test runner: class [SaltCheck] and the module functions it uses *)

Module SaltCheck.
Import Py.
Local Open Scope Z_scope.

(** The external collaborators.  [cmd fun args kwargs] is
    [salt_lc.cmd(fun, *args, **kwargs)], [list_modules] is
    [__salt__['sys.list_modules']()] and [list_functions m] is
    [__salt__['sys.list_functions'](m)].  Each may raise. *)
Record salt_env : Type := {
  cmd : value -> list value -> dict -> result value;
  list_modules : result (list value);
  list_functions : value -> result (list value)
}.

(** A test definition is the dictionary read from a test file. *)
Definition test_def : Type := dict.

(** The result of one test; [duration] counts ten-thousandths of a second,
    the precision [round(_, 4)] keeps. *)
Record test_result : Type := {
  status : string;
  duration : Z
}.

(** [x in l] for a list [l]. *)
Definition in_list (x : value) (l : list value) : bool := existsb (py_eq x) l.

(** [self.assertions_list] *)
Definition assertions_list : list value :=
  map VStr ["assertEqual"; "assertNotEqual";
            "assertTrue"; "assertFalse";
            "assertIn"; "assertNotIn";
            "assertGreater";
            "assertGreaterEqual";
            "assertLess"; "assertLessEqual";
            "assertEmpty"; "assertNotEmpty"].

(** [s.split('.')] *)
Fixpoint split_dot (s : string) : list string :=
  match s with
  | EmptyString => [""]
  | String c s' =>
      if Ascii.eqb c "."
      then "" :: split_dot s'
      else match split_dot s' with
           | p :: ps => String c p :: ps
           | [] => [String c ""]
           end
  end.

(** [module, function = m_and_f.split('.')] *)
Definition split_m_and_f (m_and_f : value) : result (string * string) :=
  match m_and_f with
  | VStr s =>
      match split_dot s with
      | [module; function] => Ok (module, function)
      | _ => Raise ValueError
      end
  | _ => Raise AttributeError
  end.

(** [_is_valid_module], memoized in the source; the collaborator of the
    model answers the same at every call, so the cache is not modelled. *)
Definition _is_valid_module (env : salt_env) (module : string)
  : result bool :=
  modules <- list_modules env ;;
  Ok (in_list (VStr module) modules).

(** [_is_valid_function], memoized likewise. *)
Definition _is_valid_function (env : salt_env) (module_name function : string)
  : result bool :=
  functions <-
    try_except (list_functions env (VStr module_name)) is_SaltException
      (fun _ => Ok [VStr "unable to look up functions"]) ;;
  Ok (in_list (VStr (module_name ++ "." ++ function)) functions).

Definition is_None (v : value) : bool :=
  match v with
  | VNone => true
  | _ => false
  end.

Definition get (td : test_def) (key : string) (default : value) : value :=
  dict_get (VStr key) td default.

(** [SaltCheck.__is_valid_test] *)
Definition __is_valid_test (env : salt_env) (td : test_def) : result bool :=
  let skip := get td "skip" (VBool false) in
  let m_and_f := get td "module_and_function" VNone in
  let assertion := get td "assertion" VNone in
  let exp_ret_key := dict_has (VStr "expected-return") td in
  let exp_ret_val := get td "expected-return" VNone in
  let required_total :=
    if truthy skip then 0
    else if in_list m_and_f [VStr "saltcheck.state_apply"] then 2
    else if in_list assertion
              (map VStr ["assertEmpty"; "assertNotEmpty";
                         "assertTrue"; "assertFalse"]) then 4
    else 6 in
  tots <-
    (if truthy m_and_f then
       mf <- split_m_and_f m_and_f ;;
       valid_module <- _is_valid_module env (fst mf) ;;
       valid_function <- _is_valid_function env (fst mf) (snd mf) ;;
       Ok (1 + Z.b2z valid_module + Z.b2z valid_function)
     else Ok 0) ;;
  let tots := if in_list assertion assertions_list then tots + 1 else tots in
  let tots := if exp_ret_key then tots + 1 else tots in
  let tots := if is_None exp_ret_val then tots else tots + 1 in
  Ok (Z.leb required_total tots).

(** [**kwargs]: the argument must be a mapping whose keys are texts. *)
Definition star_kwargs (kwargs : value) : result dict :=
  match kwargs with
  | VDict d =>
      if forallb (fun kv => match fst kv with VStr _ => true | _ => false end) d
      then Ok d else Raise TypeError
  | _ => Raise TypeError
  end.

(** [SaltCheck._call_salt_command]; both handlers of its [try] raise the
    exception again. *)
Definition _call_salt_command (env : salt_env)
    (fn args kwargs assertion_section : value) : result value :=
  value <-
    (if truthy args && truthy kwargs then
       a <- py_iter args ;; k <- star_kwargs kwargs ;; cmd env fn a k
     else if truthy args && negb (truthy kwargs) then
       a <- py_iter args ;; cmd env fn a []
     else if negb (truthy args) && truthy kwargs then
       k <- star_kwargs kwargs ;; cmd env fn [] k
     else cmd env fn [] []) ;;
  match value with
  | VDict d =>
      if truthy assertion_section then
        if hashable assertion_section
        then Ok (VStr (py_str (dict_get assertion_section d (VBool false))))
        else Raise TypeError
      else Ok value
  | _ => Ok value
  end.

(** The type of [returned], called on [v]: [type(returned)(v)]. *)
Definition ret_type (returned : value) (v : value) : result value :=
  match returned with
  | VNone => py_nonetype v
  | VBool _ => Ok (VBool (truthy v))
  | VInt _ => py_int v
  | VStr _ => Ok (VStr (py_str v))
  | VList _ => py_list v
  | VDict _ => py_dict v
  end.

Definition is_bool (v : value) : bool :=
  match v with
  | VBool _ => true
  | _ => false
  end.

Definition is_str (v : value) : bool :=
  match v with
  | VStr _ => true
  | _ => false
  end.

(** [SaltCheck._cast_expected_to_returned_type] *)
Definition _cast_expected_to_returned_type (expected returned : value)
  : result value :=
  let new_expected := expected in
  let expected :=
    if py_eq expected (VStr "False") && is_bool returned
    then VBool false else expected in
  try_except (ret_type returned expected) is_ValueError
    (fun _ => Ok new_expected).

(** *** The assertion routines

    Each starts from [result = "Pass"], runs one [assert] inside
    [try ... except AssertionError as err], and returns ["Fail: " + err]
    when the assertion fails. *)

Definition py_assert (cond : bool) (msg : string) : result unit :=
  if cond then Ok tt else Raise (AssertionError msg).

Definition catch_assertion (c : result unit) : result string :=
  match c with
  | Ok _ => Ok "Pass"
  | Raise (AssertionError err) => Ok ("Fail: " ++ err)
  | Raise e => Raise e
  end.

Definition __assert_equal (expected returned assert_print_result : value)
  : result string :=
  catch_assertion
    (if truthy assert_print_result then
       py_assert (py_eq expected returned)
         (py_str expected ++ " is not equal to " ++ py_str returned)
     else py_assert (py_eq expected returned) "Result is not equal").

Definition __assert_not_equal (expected returned assert_print_result : value)
  : result string :=
  catch_assertion
    (if truthy assert_print_result then
       py_assert (negb (py_eq expected returned))
         (py_str expected ++ " is equal to " ++ py_str returned)
     else py_assert (negb (py_eq expected returned)) "Result is equal").

(** [returned is True] *)
Definition is_True (v : value) : bool :=
  match v with
  | VBool true => true
  | _ => false
  end.

(** [returned is False] *)
Definition is_False (v : value) : bool :=
  match v with
  | VBool false => true
  | _ => false
  end.

Definition __assert_true (returned : value) : result string :=
  catch_assertion (py_assert (is_True returned) (py_str returned ++ " not True")).

Definition __assert_false (returned : value) : result string :=
  let returned :=
    if is_str returned then VBool (truthy returned) else returned in
  catch_assertion
    (py_assert (is_False returned) (py_str returned ++ " not False")).

Definition __assert_in (expected returned assert_print_result : value)
  : result string :=
  catch_assertion
    (if truthy assert_print_result then
       found <- py_in expected returned ;;
       py_assert found (py_str expected ++ " not found in " ++ py_str returned)
     else
       found <- py_in expected returned ;;
       py_assert found "Result not found").

Definition __assert_not_in (expected returned assert_print_result : value)
  : result string :=
  catch_assertion
    (if truthy assert_print_result then
       found <- py_in expected returned ;;
       py_assert (negb found)
         (py_str expected ++ " was found in " ++ py_str returned)
     else
       found <- py_in expected returned ;;
       py_assert (negb found) "Result was found").

Definition __assert_greater (expected returned : value) : result string :=
  catch_assertion
    (holds <- py_compare OpGt expected returned ;;
     py_assert holds (py_str returned ++ " not False")).

Definition __assert_greater_equal (expected returned : value)
  : result string :=
  catch_assertion
    (holds <- py_compare OpGe expected returned ;;
     py_assert holds (py_str returned ++ " not False")).

Definition __assert_less (expected returned : value) : result string :=
  catch_assertion
    (holds <- py_compare OpLt expected returned ;;
     py_assert holds (py_str returned ++ " not False")).

Definition __assert_less_equal (expected returned : value) : result string :=
  catch_assertion
    (holds <- py_compare OpLe expected returned ;;
     py_assert holds (py_str returned ++ " not False")).

Definition __assert_empty (returned : value) : result string :=
  catch_assertion
    (py_assert (negb (truthy returned)) (py_str returned ++ " is not empty")).

Definition __assert_not_empty (returned : value) : result string :=
  catch_assertion (py_assert (truthy returned) "value is empty").

(** [test_dict[key]] *)
Definition getitem (td : test_def) (key : string) : result value :=
  match dict_find (VStr key) td with
  | Some v => Ok v
  | None => Raise KeyError
  end.

(** [kwargs.update({key: data})] *)
Definition kwargs_update (kwargs key data : value) : result value :=
  match kwargs with
  | VDict d => Ok (VDict (dict_set key data d))
  | _ => Raise AttributeError
  end.

(** [kwargs.pop(key)], called when [key in kwargs] holds. *)
Definition kwargs_pop (kwargs key : value) : result value :=
  match kwargs with
  | VDict d => Ok (VDict (dict_pop key d))
  | VList _ => Raise TypeError
  | _ => Raise AttributeError
  end.

(** The handling of [pillar-data] and of [grain-data] in [run_test]:
    [field] is the key of the test definition, [key] the keyword argument. *)
Definition inject_data (td : test_def) (field key : string) (kwargs : value)
  : result value :=
  let data := get td field (VDict []) in
  if truthy data then kwargs_update kwargs (VStr key) data
  else
    present <- py_in (VStr key) kwargs ;;
    if present then kwargs_pop kwargs (VStr key) else Ok kwargs.

(** [SaltCheck.run_test]; [start] and [end_] are the two readings of
    [time.time()]. *)
Definition run_test (env : salt_env) (td : test_def) (start end_ : Z)
  : result test_result :=
  valid <- __is_valid_test env td ;;
  if valid then
    let skip := get td "skip" (VBool false) in
    if truthy skip then Ok {| status := "Skip"; duration := 0 |}
    else
      mod_and_func <- getitem td "module_and_function" ;;
      let assertion_section := get td "assertion_section" VNone in
      let args := get td "args" VNone in
      let kwargs := get td "kwargs" (VDict []) in
      let kwargs := if negb (truthy kwargs) then VDict [] else kwargs in
      kwargs <- inject_data td "pillar-data" "pillar" kwargs ;;
      kwargs <- inject_data td "grain-data" "grain" kwargs ;;
      assertion <-
        (if in_list mod_and_func [VStr "saltcheck.state_apply"]
         then Ok (VStr "assertNotEmpty")
         else getitem td "assertion") ;;
      let expected_return := get td "expected-return" VNone in
      let assert_print_result := get td "print_result" (VBool true) in
      actual_return <-
        _call_salt_command env mod_and_func args kwargs assertion_section ;;
      expected_return <-
        (if negb (in_list assertion
                    (map VStr ["assertIn"; "assertNotIn"; "assertEmpty";
                               "assertNotEmpty"; "assertTrue"; "assertFalse"]))
         then _cast_expected_to_returned_type expected_return actual_return
         else Ok expected_return) ;;
      value <-
        (if py_eq assertion (VStr "assertEqual") then
           __assert_equal expected_return actual_return assert_print_result
         else if py_eq assertion (VStr "assertNotEqual") then
           __assert_not_equal expected_return actual_return assert_print_result
         else if py_eq assertion (VStr "assertTrue") then
           __assert_true actual_return
         else if py_eq assertion (VStr "assertFalse") then
           __assert_false actual_return
         else if py_eq assertion (VStr "assertIn") then
           __assert_in expected_return actual_return assert_print_result
         else if py_eq assertion (VStr "assertNotIn") then
           __assert_not_in expected_return actual_return assert_print_result
         else if py_eq assertion (VStr "assertGreater") then
           __assert_greater expected_return actual_return
         else if py_eq assertion (VStr "assertGreaterEqual") then
           __assert_greater_equal expected_return actual_return
         else if py_eq assertion (VStr "assertLess") then
           __assert_less expected_return actual_return
         else if py_eq assertion (VStr "assertLessEqual") then
           __assert_less_equal expected_return actual_return
         else if py_eq assertion (VStr "assertEmpty") then
           __assert_empty actual_return
         else if py_eq assertion (VStr "assertNotEmpty") then
           __assert_not_empty actual_return
         else Ok "Fail - bad assertion") ;;
      Ok {| status := value; duration := end_ - start |}
  else Ok {| status := "Fail - invalid test"; duration := end_ - start |}.

End SaltCheck.

(** ** The test file loader: class [StateTestLoader] *)

Module StateTestLoader.
Import Py.

Definition sep : string := "/".

(** The file system and the renderer.  [os_walk top] lists, in the order of
    the walk, each directory under [top] with the names of its files;
    [render f] is [__salt__['slsutil.renderer'](f)]. *)
Record file_system : Type := {
  isdir : string -> bool;
  isfile : string -> bool;
  os_walk : string -> list (string * list string);
  abspath : string -> string;
  render : string -> result value
}.

(** The object: [self.search_paths], [self.test_files], [self.test_dict]. *)
Record loader : Type := {
  search_paths : list string;
  test_files : list string;
  test_dict : dict
}.

(** [StateTestLoader.__init__] *)
Definition init (paths : list string) : loader :=
  {| search_paths := paths; test_files := []; test_dict := [] |}.

(** The key [json.dumps] writes for a dictionary key. *)
Definition json_key (k : value) : string :=
  match k with
  | VStr s => s
  | VBool true => "true"
  | VBool false => "false"
  | VNone => "null"
  | _ => py_str k
  end.

(** [loads(dumps(v), object_pairs_hook=OrderedDict)]: every key becomes a
    text, and of two equal keys the later value stays at the earlier place. *)
Fixpoint loads_dumps (v : value) : value :=
  match v with
  | VList l => VList (map loads_dumps l)
  | VDict d =>
      VDict
        ((fix items (d : list (value * value)) (acc : dict) : dict :=
            match d with
            | [] => acc
            | (k, x) :: d' =>
                items d' (dict_set (VStr (json_key k)) (loads_dumps x) acc)
            end) d [])
  | _ => v
  end.

(** [mydict.items()] *)
Definition items (v : value) : result dict :=
  match v with
  | VDict d => Ok d
  | _ => Raise AttributeError
  end.

(** [for key, value in ...: self.test_dict[key] = value] *)
Definition update_all (acc : dict) (kvs : dict) : dict :=
  fold_left (fun acc kv => dict_set (fst kv) (snd kv) acc) kvs acc.

(** [StateTestLoader._load_file_salt_rendered] *)
Definition _load_file_salt_rendered (fs : file_system) (self : loader)
    (filepath : string) : result loader :=
  tests <- render fs filepath ;;
  let mydict := loads_dumps tests in
  kvs <- items mydict ;;
  Ok {| search_paths := search_paths self;
        test_files := test_files self;
        test_dict := update_all (test_dict self) kvs |}.

(** [StateTestLoader.load_test_suite] *)
Definition load_test_suite (fs : file_system) (self : loader)
  : result loader :=
  let self := {| search_paths := search_paths self;
                 test_files := test_files self;
                 test_dict := [] |} in
  self <-
    fold_left
      (fun acc myfile => self <- acc ;; _load_file_salt_rendered fs self myfile)
      (test_files self) (Ok self) ;;
  Ok {| search_paths := search_paths self;
        test_files := [];
        test_dict := test_dict self |}.

(** [filelist.sort()]: texts in increasing order. *)
Fixpoint insert (x : string) (l : list string) : list string :=
  match l with
  | [] => [x]
  | y :: l' => if String.leb x y then x :: l else y :: insert x l'
  end.

Definition sort (l : list string) : list string := fold_right insert [] l.

(** [s.endswith(suffix)] *)
Definition endswith (s suffix : string) : bool :=
  let n := String.length s in
  let m := String.length suffix in
  Nat.leb m n && String.eqb (substring (n - m) m s) suffix.

(** [StateTestLoader._gather_files] *)
Definition _gather_files (fs : file_system) (self : loader)
    (filepath : string) : loader :=
  let filepath := filepath ++ sep ++ "saltcheck-tests" in
  let found :=
    flat_map
      (fun entry =>
         let dirname := fst entry in
         let filelist := sort (snd entry) in
         map (fun fname => abspath fs (dirname ++ sep ++ fname))
           (filter (fun fname => endswith fname ".tst") filelist))
      (os_walk fs filepath) in
  {| search_paths := search_paths self;
     test_files := found;
     test_dict := test_dict self |}.

(** [sls.replace(".", os.sep)] *)
Fixpoint _convert_sls_to_path (sls : string) : string :=
  match sls with
  | EmptyString => ""
  | String c s' =>
      if Ascii.eqb c "." then sep ++ _convert_sls_to_path s'
      else String c (_convert_sls_to_path s')
  end.

(** The text before and the text after the last dot, when there is one. *)
Fixpoint split_last_dot (s : string) : option (string * string) :=
  match s with
  | EmptyString => None
  | String c s' =>
      match split_last_dot s' with
      | Some (h, t) => Some (String c h, t)
      | None => if Ascii.eqb c "." then Some ("", s') else None
      end
  end.

(** [s.rpartition('.')] *)
Definition rpartition (s : string) : string * string * string :=
  match split_last_dot s with
  | Some (h, t) => (h, ".", t)
  | None => ("", "", s)
  end.

Definition append_file (self : loader) (f : string) : loader :=
  {| search_paths := search_paths self;
     test_files := test_files self ++ [f];
     test_dict := test_dict self |}.

(** The loop of [add_test_files_for_sls] over the search paths left. *)
Fixpoint add_loop (fs : file_system) (head leaf : string) (check_all : bool)
    (paths : list string) (self : loader) : loader :=
  match paths with
  | [] => self
  | path :: rest =>
      let base_path :=
        if negb (String.eqb head "")
        then path ++ sep ++ _convert_sls_to_path head
        else path in
      if isdir fs base_path then
        if check_all then _gather_files fs self (base_path ++ sep ++ leaf)
        else
          let init_path :=
            base_path ++ sep ++ leaf ++ sep ++ "saltcheck-tests" ++ sep
              ++ "init.tst" in
          let name_path :=
            base_path ++ sep ++ "saltcheck-tests" ++ sep ++ leaf ++ ".tst" in
          let self :=
            if isfile fs init_path then append_file self init_path else self in
          let self :=
            if isfile fs name_path then append_file self name_path else self in
          add_loop fs head leaf check_all rest self
      else add_loop fs head leaf check_all rest self
  end.

(** [StateTestLoader.add_test_files_for_sls] *)
Definition add_test_files_for_sls (fs : file_system) (self : loader)
    (sls_name : string) (check_all : bool) : loader :=
  let sls_split := rpartition sls_name in
  add_loop fs (fst (fst sls_split)) (snd sls_split) check_all
    (search_paths self) self.

End StateTestLoader.

(** ** The module functions: running the tests of states *)

Module Runner.
Import Py SaltCheck StateTestLoader.

(** What the functions of the module reach outside of it: [__opts__],
    [SaltCheck(saltenv)] (its configuration and cache update done, it gives
    the collaborators of the instance), [salt.utils.args.split_input],
    [__salt__['state.show_top']()], the file system and the clock.  [now n]
    holds the two readings of [time.time()] of the call of [run_test]
    number [n]. *)
Record host : Type := {
  opts : dict;
  new_saltcheck : value -> result salt_env;
  split_input : value -> result (list value);
  show_top : result dict;
  files : file_system;
  now : nat -> Z * Z
}.

(** [results_dict]: test name to result, in the order of the tests. *)
Definition rows : Type := list (value * test_result).

(** [results]: state name to [results_dict]. *)
Definition results : Type := list (string * rows).

(** [results_dict[key] = result] *)
Fixpoint rows_set (key : value) (r : test_result) (d : rows) : rows :=
  match d with
  | [] => [(key, r)]
  | (k, r') :: d' =>
      if py_eq key k then (k, r) :: d' else (k, r') :: rows_set key r d'
  end.

(** [results[state_name] = results_dict] *)
Fixpoint results_set (name : string) (v : rows) (d : results) : results :=
  match d with
  | [] => [(name, v)]
  | (k, v') :: d' =>
      if String.eqb name k then (k, v) :: d'
      else (k, v') :: results_set name v d'
  end.

(** [scheck.run_test(value)] on a value of the test dictionary: what is
    not a dictionary has no [get]. *)
Definition run_test_value (env : salt_env) (v : value) (start end_ : Z)
  : result test_result :=
  match v with
  | VDict td => run_test env td start end_
  | _ => Raise AttributeError
  end.

(** [for key, value in stl.test_dict.items(): ...]; [n] counts the calls
    of [run_test]. *)
Fixpoint run_items (env : salt_env) (clock : nat -> Z * Z) (items : dict)
    (n : nat) (results_dict : rows) : result (rows * nat) :=
  match items with
  | [] => Ok (results_dict, n)
  | (key, v) :: rest =>
      r <- run_test_value env v (fst (clock n)) (snd (clock n)) ;;
      run_items env clock rest (S n) (rows_set key r results_dict)
  end.

(** The body of the loop over the states, the same text in
    [run_state_tests] and in [run_highstate_tests]. *)
Definition run_state (h : host) (env : salt_env) (check_all : bool)
    (acc : loader * results * nat) (state_name : value)
  : result (loader * results * nat) :=
  let '(stl, res, n) := acc in
  match state_name with
  | VStr name =>
      let stl := add_test_files_for_sls (files h) stl name check_all in
      stl <- load_test_suite (files h) stl ;;
      rn <- run_items env (now h) (test_dict stl) n [] ;;
      Ok (stl, results_set name (fst rn) res, snd rn)
  | _ => Raise AttributeError
  end.

Definition run_states (h : host) (env : salt_env) (check_all : bool)
    (stl : loader) (sls_list : list value) : result results :=
  acc <-
    fold_left (fun acc state_name =>
                 a <- acc ;; run_state h env check_all a state_name)
      sls_list (Ok (stl, [], 0%nat)) ;;
  Ok (snd (fst acc)).

(** The counters of [_generate_out_list]; [total_time] in ten-thousandths
    of a second. *)
Record totals : Type := {
  passed : nat;
  failed : nat;
  skipped : nat;
  missing_tests : nat;
  total_time : Z
}.

Definition no_totals : totals :=
  {| passed := 0; failed := 0; skipped := 0; missing_tests := 0;
     total_time := 0 |}.

(** One result: the three tests on the start of the status, then the
    duration. *)
Definition count_result (t : totals) (val : test_result) : totals :=
  let p := if prefix "Pass" (status val) then S (passed t) else passed t in
  let f := if prefix "Fail" (status val) then S (failed t) else failed t in
  let s := if prefix "Skip" (status val) then S (skipped t) else skipped t in
  {| passed := p; failed := f; skipped := s;
     missing_tests := missing_tests t;
     total_time := (total_time t + duration val)%Z |}.

(** One state: a state without results is a state whose tests are
    missing. *)
Definition count_state (t : totals) (state : string * rows) : totals :=
  match snd state with
  | [] =>
      {| passed := passed t; failed := failed t; skipped := skipped t;
         missing_tests := S (missing_tests t); total_time := total_time t |}
  | items => fold_left (fun t kv => count_result t (snd kv)) items t
  end.

(** An element of the list [_generate_out_list] returns: the results of a
    state, or the summary under the key 'TEST RESULTS'. *)
Inductive out_item : Type :=
| StateResults (name : string) (r : rows)
| TestResults (t : totals).

(** [out_list.sort(key=lambda x: list(x.keys())[0])]: by state name, equal
    names in the order they had. *)
Fixpoint insert_state (x : string * rows) (l : results) : results :=
  match l with
  | [] => [x]
  | y :: l' =>
      if String.leb (fst x) (fst y) then x :: l else y :: insert_state x l'
  end.

Definition sort_states (l : results) : results :=
  fold_right insert_state [] l.

(** [_generate_out_list] *)
Definition _generate_out_list (res : results) : list out_item :=
  let t := fold_left count_state res no_totals in
  (map (fun kv => StateResults (fst kv) (snd kv)) (sort_states res)
   ++ [TestResults t])%list.

(** [saltenv] as both runners settle it: the argument, else
    [__opts__['saltenv']], else 'base'. *)
Definition settle_saltenv (h : host) (saltenv : value) : result value :=
  saltenv <-
    (if negb (truthy saltenv) then
       match dict_find (VStr "saltenv") (opts h) with
       | Some v => Ok v
       | None => Raise KeyError
       end
     else Ok saltenv) ;;
  Ok (if negb (truthy saltenv) then VStr "base" else saltenv).

(** [SaltCheck.get_state_search_path_list]: [cachedir + os.sep + "files" +
    os.sep + saltenv], texts only. *)
Definition get_state_search_path_list (h : host) (saltenv : value)
  : result (list string) :=
  let cachedir := dict_get (VStr "cachedir") (opts h) VNone in
  match cachedir, saltenv with
  | VStr c, VStr e => Ok [c ++ sep ++ "files" ++ sep ++ e]
  | _, _ => Raise TypeError
  end.

(** [run_state_tests] *)
Definition run_state_tests (h : host) (state saltenv : value)
    (check_all : bool) : result (list out_item) :=
  saltenv <- settle_saltenv h saltenv ;;
  scheck <- new_saltcheck h saltenv ;;
  paths <- get_state_search_path_list h saltenv ;;
  let stl := init paths in
  sls_list <- split_input h state ;;
  res <- run_states h scheck check_all stl sls_list ;;
  Ok (_generate_out_list res).

(** [_get_top_states]: the states the mapping of [state.show_top] lists
    for the environment. *)
Definition _get_top_states (h : host) (saltenv : value)
  : result (list value) :=
  returned <- show_top h ;;
  if hashable saltenv then
    match dict_find saltenv returned with
    | Some l => py_iter l
    | None => Raise KeyError
    end
  else Raise TypeError.

(** [for state in sls_list: if state not in all_states: append] *)
Definition all_states_of (sls_list : list value) : list value :=
  fold_left (fun all_states state =>
               if in_list state all_states then all_states
               else (all_states ++ [state])%list)
    sls_list [].

(** [run_highstate_tests] *)
Definition run_highstate_tests (h : host) (saltenv : value)
    (check_all : bool) : result (list out_item) :=
  saltenv <- settle_saltenv h saltenv ;;
  scheck <- new_saltcheck h saltenv ;;
  paths <- get_state_search_path_list h saltenv ;;
  let stl := init paths in
  sls_list <- _get_top_states h saltenv ;;
  let all_states := all_states_of sls_list in
  res <- run_states h scheck check_all stl all_states ;;
  Ok (_generate_out_list res).

(** What the module function [run_test] returns: the record of the method,
    or a text. *)
Inductive run_test_return : Type :=
| Record_ (r : test_result)
| Text (s : string).

(** The module function [run_test], called with keyword arguments: [test]
    is the keyword argument of that name, None when it is not given. *)
Definition run_test_function (h : host) (test : value) (start end_ : Z)
  : result run_test_return :=
  scheck <- new_saltcheck h (VStr "base") ;;
  match test with
  | VDict td =>
      if truthy test then
        r <- run_test scheck td start end_ ;; Ok (Record_ r)
      else Ok (Text "Test must be a dictionary")
  | _ => Ok (Text "Test must be a dictionary")
  end.

End Runner.

(** * Vocabulary of the properties

    The predicates the statements use, the pieces of [run_test] named one
    by one, and the environments and test definitions of the examples. *)

Import Py SaltCheck StateTestLoader.

(** ** Induction on values *)

Section value_induction.
Variable P : value -> Prop.
Hypothesis HNone : P VNone.
Hypothesis HBool : forall b, P (VBool b).
Hypothesis HInt : forall z, P (VInt z).
Hypothesis HStr : forall s, P (VStr s).
Hypothesis HList : forall l, Forall P l -> P (VList l).
Hypothesis HDict :
  forall d, Forall (fun kv => P (fst kv) /\ P (snd kv)) d -> P (VDict d).

Fixpoint value_induction (v : value) : P v :=
  match v with
  | VNone => HNone
  | VBool b => HBool b
  | VInt z => HInt z
  | VStr s => HStr s
  | VList l =>
      HList l
        ((fix all (l : list value) : Forall P l :=
            match l with
            | [] => Forall_nil P
            | x :: l' => Forall_cons x (value_induction x) (all l')
            end) l)
  | VDict d =>
      HDict d
        ((fix all (d : list (value * value))
            : Forall (fun kv => P (fst kv) /\ P (snd kv)) d :=
            match d with
            | [] => Forall_nil _
            | (k, x) :: d' =>
                Forall_cons (k, x)
                  (conj (value_induction k) (value_induction x)) (all d')
            end) d)
  end.
End value_induction.

(** ** Verdicts and statuses *)

(** A text that begins with "Pass" or with "Fail". *)
Definition begins_pass_or_fail (s : string) : Prop :=
  prefix "Pass" s = true \/ prefix "Fail" s = true.

(** The routine returned, and returned such a text. *)
Definition returns_verdict (r : result string) : Prop :=
  exists s, r = Ok s /\ begins_pass_or_fail s.

(** The two shapes a routine writes: "Pass", or "Fail: " and a message. *)
Definition pass_or_fail_message (s : string) : Prop :=
  s = "Pass" \/ exists msg, s = "Fail: " ++ msg.

(** What a routine built on a comparison [c] does: a verdict when [c] is
    defined, and the [TypeError] of [c] otherwise. *)
Definition verdict_or_type_error (c : result bool) (r : result string)
  : Prop :=
  match c with
  | Ok _ => returns_verdict r
  | Raise e => e = TypeError /\ r = Raise TypeError
  end.

(** The same with the shape of the text spelled out. *)
Definition message_or_type_error (r : result string) : Prop :=
  match r with
  | Ok s => pass_or_fail_message s
  | Raise e => e = TypeError
  end.

(** The statuses [run_test] writes, "Fail - bad assertion" apart. *)
Definition status_shape (s : string) : Prop :=
  s = "Skip" \/ s = "Fail - invalid test" \/ pass_or_fail_message s.

(** ** The steps of [run_test], one by one *)

(** The operation name that stands for [state.apply]. *)
Definition alias : value := VStr "saltcheck.state_apply".

(** [kwargs] as read from the test definition, [{}] when it is falsy. *)
Definition initial_kwargs (td : test_def) : value :=
  let kwargs := get td "kwargs" (VDict []) in
  if negb (truthy kwargs) then VDict [] else kwargs.

(** The assertion [run_test] goes on with. *)
Definition effective_assertion (td : test_def) (mod_and_func : value)
  : result value :=
  if in_list mod_and_func [alias]
  then Ok (VStr "assertNotEmpty")
  else getitem td "assertion".

(** The assertions that take the expected value as it is. *)
Definition no_coercion : list value :=
  map VStr ["assertIn"; "assertNotIn"; "assertEmpty";
            "assertNotEmpty"; "assertTrue"; "assertFalse"].

(** The coercion step, skipped for six assertions. *)
Definition coerce (assertion expected_return actual_return : value)
  : result value :=
  if negb (in_list assertion no_coercion)
  then _cast_expected_to_returned_type expected_return actual_return
  else Ok expected_return.

(** The chain of comparisons on the name of the assertion. *)
Definition dispatch (assertion expected_return actual_return
    assert_print_result : value) : result string :=
  if py_eq assertion (VStr "assertEqual") then
    __assert_equal expected_return actual_return assert_print_result
  else if py_eq assertion (VStr "assertNotEqual") then
    __assert_not_equal expected_return actual_return assert_print_result
  else if py_eq assertion (VStr "assertTrue") then
    __assert_true actual_return
  else if py_eq assertion (VStr "assertFalse") then
    __assert_false actual_return
  else if py_eq assertion (VStr "assertIn") then
    __assert_in expected_return actual_return assert_print_result
  else if py_eq assertion (VStr "assertNotIn") then
    __assert_not_in expected_return actual_return assert_print_result
  else if py_eq assertion (VStr "assertGreater") then
    __assert_greater expected_return actual_return
  else if py_eq assertion (VStr "assertGreaterEqual") then
    __assert_greater_equal expected_return actual_return
  else if py_eq assertion (VStr "assertLess") then
    __assert_less expected_return actual_return
  else if py_eq assertion (VStr "assertLessEqual") then
    __assert_less_equal expected_return actual_return
  else if py_eq assertion (VStr "assertEmpty") then
    __assert_empty actual_return
  else if py_eq assertion (VStr "assertNotEmpty") then
    __assert_not_empty actual_return
  else Ok "Fail - bad assertion".

(** The arguments [_call_salt_command] hands to the operation: [*args]
    when [args] is truthy and [**kwargs] when [kwargs] is, none
    otherwise. *)
Definition positional (args : value) : result (list value) :=
  if truthy args then py_iter args else Ok [].

Definition keywords (kwargs : value) : result dict :=
  if truthy kwargs then star_kwargs kwargs else Ok [].

(** ** Test definitions typed as the data model has them *)

(** Every key of the dictionary is a text. *)
Definition str_keys (d : dict) : bool :=
  forallb (fun kv => match fst kv with VStr _ => true | _ => false end) d.






(** ** What leaves [run_test] *)






(** ** Discovery and merging *)

(** The order of [filelist.sort()]. *)
Definition leb_prop (x y : string) : Prop := String.leb x y = true.

(** The two conventional places of the tests of the unit "a.b" under a
    search root [R]. *)
Definition init_tst (R : string) : string :=
  R ++ "/a/b/saltcheck-tests/init.tst".

Definition named_tst (R : string) : string :=
  R ++ "/a/saltcheck-tests/b.tst".

(** [names] are the files of [files] that end in ".tst", in increasing
    order. *)
Definition tst_names (files names : list string) : Prop :=
  Permutation names (filter (fun f => endswith f ".tst") files) /\
  StronglySorted leb_prop names.

(** [out] lists, directory after directory in the order of the walk of
    [top], the absolute paths of the ".tst" files of each directory, sorted
    by name within the directory. *)
Definition collected (fs : file_system) (top : string) (out : list string)
  : Prop :=
  exists groups : list (list string),
    Forall2 (fun entry names => tst_names (snd entry) names)
      (os_walk fs top) groups /\
    out =
      concat
        (map (fun p =>
                map (fun f => abspath fs (fst (fst p) ++ "/" ++ f)) (snd p))
           (combine (os_walk fs top) groups)).

(** The items [loads_dumps] builds for a dictionary. *)
Fixpoint loads_dumps_items (d : list (value * value)) (acc : dict) : dict :=
  match d with
  | [] => acc
  | (k, x) :: d' =>
      loads_dumps_items d'
        (dict_set (VStr (json_key k)) (loads_dumps x) acc)
  end.

(** A dictionary whose keys are texts, each once. *)
Definition text_keyed (d : dict) : Prop :=
  str_keys d = true /\ NoDup (dict_keys d).

(** ** Environments and test definitions of the examples *)

(** An environment whose operation returns the integer 5. *)
Definition env_five : salt_env :=
  {| cmd := fun _ _ _ => Ok (VInt 5);
     list_modules := Ok [VStr "test"];
     list_functions := fun _ => Ok [VStr "test.echo"] |}.

(** An environment that echoes the first argument of the operation. *)
Definition env_echo : salt_env :=
  {| cmd := fun _ args _ =>
              match args with
              | x :: _ => Ok x
              | [] => Ok (VStr "")
              end;
     list_modules := Ok [VStr "test"; VStr "saltcheck"];
     list_functions :=
       fun _ => Ok [VStr "test.echo"; VStr "saltcheck.state_apply"] |}.

(** The basic example of the module documentation. *)
Definition echo_test_hello : test_def :=
  [(VStr "module_and_function", VStr "test.echo");
   (VStr "args", VList [VStr "hello"]);
   (VStr "kwargs", VNone);
   (VStr "assertion", VStr "assertEqual");
   (VStr "expected-return", VStr "hello")].

(** A setup test that declares assertEqual all the same. *)
Definition setup_test_environment : test_def :=
  [(VStr "module_and_function", VStr "saltcheck.state_apply");
   (VStr "args", VList [VStr "common"]);
   (VStr "assertion", VStr "assertEqual");
   (VStr "expected-return", VStr "other");
   (VStr "pillar-data", VDict [(VStr "data", VStr "value")])].

(** A test whose operation returns a number, asserted with assertIn. *)
Definition membership_in_number : test_def :=
  [(VStr "module_and_function", VStr "test.echo");
   (VStr "args", VList [VInt 5]);
   (VStr "assertion", VStr "assertIn");
   (VStr "expected-return", VStr "5")].



(** A skipped test whose operation name has no dot. *)
Definition skipped_without_dot : test_def :=
  [(VStr "skip", VBool true); (VStr "module_and_function", VStr "test")].

(** A file system with one root that holds the unit. *)
Definition fs_srv : file_system :=
  {| isdir := fun p => String.eqb p "/srv/a";
     isfile := fun p => String.eqb p "/srv/a/b/saltcheck-tests/init.tst";
     os_walk :=
       fun top =>
         if String.eqb top "/srv/a/b/saltcheck-tests"
         then [(top, ["z.tst"; "notes.txt"; "a.tst"]);
               (top ++ "/deep", ["m.tst"])]
         else [];
     abspath := fun p => p;
     render := fun _ => Ok (VDict []) |}.

(** A loader with three search roots, the second of which holds the unit. *)
Definition loader_srv : loader := init ["/none"; "/srv"; "/other"].

(** Two test files that both define the test [x]. *)
Definition fs_two : file_system :=
  {| isdir := fun _ => true;
     isfile := fun _ => true;
     os_walk := fun _ => [];
     abspath := fun p => p;
     render :=
       fun f =>
         if String.eqb f "one.tst"
         then Ok (VDict [(VStr "w", VDict [(VStr "skip", VBool true)]);
                         (VStr "x", VDict [(VStr "assertion",
                                            VStr "assertTrue")])])
         else Ok (VDict [(VStr "x", VDict [(VStr "assertion",
                                            VStr "assertFalse")]);
                         (VStr "y", VDict [])]) |}.

(** A loader about to load the two files. *)
Definition loader_two : loader :=
  {| search_paths := []; test_files := ["one.tst"; "two.tst"];
     test_dict := [] |}.

(** ** Vocabulary of the further properties *)

Import Runner.

(** The four assertions that need no expected value. *)
Definition no_expectation : list value :=
  map VStr ["assertEmpty"; "assertNotEmpty"; "assertTrue"; "assertFalse"].

(** A test definition without an operation name. *)
Definition without_operation : test_def :=
  [(VStr "assertion", VStr "assertEqual");
   (VStr "expected-return", VStr "hello")].

(** An environment whose function lookup fails. *)
Definition env_lookup_fails : salt_env :=
  {| cmd := fun _ _ _ => Ok (VInt 5);
     list_modules := Ok [VStr "test"];
     list_functions := fun _ => Raise SaltException |}.

(** The number a decimal numeral denotes, read digit after digit from the
    number [acc] of the digits before. *)
Fixpoint uint_val (acc : Z) (d : Decimal.uint) : Z :=
  match d with
  | Decimal.Nil => acc
  | Decimal.D0 l => uint_val (acc * 10 + 0) l
  | Decimal.D1 l => uint_val (acc * 10 + 1) l
  | Decimal.D2 l => uint_val (acc * 10 + 2) l
  | Decimal.D3 l => uint_val (acc * 10 + 3) l
  | Decimal.D4 l => uint_val (acc * 10 + 4) l
  | Decimal.D5 l => uint_val (acc * 10 + 5) l
  | Decimal.D6 l => uint_val (acc * 10 + 6) l
  | Decimal.D7 l => uint_val (acc * 10 + 7) l
  | Decimal.D8 l => uint_val (acc * 10 + 8) l
  | Decimal.D9 l => uint_val (acc * 10 + 9) l
  end.

(** [type(a) == type(b)] *)
Definition same_type (a b : value) : bool :=
  match a, b with
  | VNone, VNone | VBool _, VBool _ | VInt _, VInt _ | VStr _, VStr _
  | VList _, VList _ | VDict _, VDict _ => true
  | _, _ => false
  end.

(** A routine passed. *)
Definition passes (r : result string) : Prop := r = Ok "Pass".

(** Of two routines, one passes and the other does not. *)
Definition exactly_one_passes (r1 r2 : result string) : Prop :=
  (passes r1 /\ ~ passes r2) \/ (~ passes r1 /\ passes r2).

(** The comparison that holds when [op] does not. *)
Definition op_neg (op : cmp_op) : cmp_op :=
  match op with
  | OpLt => OpGe
  | OpLe => OpGt
  | OpGt => OpLe
  | OpGe => OpLt
  end.

(** An environment whose operation returns a mapping. *)
Definition env_user_info : salt_env :=
  {| cmd := fun _ _ _ =>
              Ok (VDict [(VStr "shell", VStr "/bin/bash");
                         (VStr "active", VBool true)]);
     list_modules := Ok [VStr "user"];
     list_functions := fun _ => Ok [VStr "user.info"] |}.

(** Keyword arguments left over from an earlier test. *)
Definition stale_kwargs : dict :=
  [(VStr "pillar", VDict [(VStr "data", VStr "old")]);
   (VStr "test", VBool true)].

(** A component of a unit name: a text that is not empty and has no
    dot. *)
Definition component (c : string) : bool :=
  negb (String.eqb c "") && negb (contains_char "." c).

(** The name of the unit [leaf] below the components [parts]: the texts
    joined by dots. *)
Definition unit_name (parts : list string) (leaf : string) : string :=
  String.concat "." (parts ++ [leaf])%list.

(** The directory of the components [parts] under a search root: one
    directory below the other, the root itself when there is none. *)
Fixpoint unit_dir (R : string) (parts : list string) : string :=
  match parts with
  | [] => R
  | c :: rest => unit_dir (R ++ "/" ++ c) rest
  end.

(** A file system where the unit [apache.mods.ssl] has both its test
    files under [/srv]. *)
Definition fs_nested : file_system :=
  {| isdir := fun p => String.eqb p "/srv/apache/mods";
     isfile :=
       fun p =>
         String.eqb p "/srv/apache/mods/ssl/saltcheck-tests/init.tst" ||
         String.eqb p "/srv/apache/mods/saltcheck-tests/ssl.tst";
     os_walk :=
       fun top =>
         if String.eqb top "/srv/apache/mods/ssl/saltcheck-tests"
         then [(top, ["b.tst"; "a.tst"])]
         else [];
     abspath := fun p => p;
     render := fun _ => Ok (VDict []) |}.

(** The value the last of the mappings [ds] that has the key [x] gives
    it. *)
Definition last_binding (x : string) (ds : list dict) : option value :=
  fold_left (fun acc d =>
               match dict_find (VStr x) d with
               | Some v => Some v
               | None => acc
               end) ds None.

(** The file [f] renders to the mapping [d]. *)
Definition renders_to (fs : file_system) (f : string) (d : dict) : Prop :=
  exists t, render fs f = Ok t /\ loads_dumps t = VDict d.

(** A file system where the unit [apache] has tests under [/srv]. *)
Definition fs_apache : file_system :=
  {| isdir := fun p => String.eqb p "/srv";
     isfile := fun p => String.eqb p "/srv/saltcheck-tests/apache.tst";
     os_walk := fun _ => [];
     abspath := fun p => p;
     render :=
       fun f =>
         if String.eqb f "/srv/saltcheck-tests/apache.tst"
         then Ok (VDict [(VStr "x", VDict [(VStr "skip", VBool true)])])
         else Ok VNone |}.

(** A loader about to load the tests of [apache] and an empty file. *)
Definition loader_apache : loader :=
  {| search_paths := ["/srv"];
     test_files := ["/srv/saltcheck-tests/apache.tst"; "/srv/empty.tst"];
     test_dict := [(VStr "left over", VNone)] |}.

(** The same loader with the one good file. *)
Definition loader_apache_good : loader :=
  {| search_paths := ["/srv"];
     test_files := ["/srv/saltcheck-tests/apache.tst"];
     test_dict := [(VStr "left over", VNone)] |}.

(** All the results of all the states. *)
Definition all_rows (res : results) : rows := flat_map snd res.

(** The number of results whose status begins with [pfx]. *)
Definition count_prefix (pfx : string) (r : rows) : nat :=
  List.length (filter (fun kv => prefix pfx (status (snd kv))) r).

(** The number of states without results. *)
Definition count_missing (res : results) : nat :=
  List.length
    (filter (fun st => match snd st with [] => true | _ => false end) res).

(** The sum of the durations. *)
Definition sum_durations (r : rows) : Z :=
  fold_right (fun kv t => (duration (snd kv) + t)%Z) 0%Z r.

(** The order of the states in the list returned. *)
Definition state_leb (a b : string * rows) : Prop :=
  leb_prop (fst a) (fst b).

(** Every result has one of the statuses [run_test] writes. *)
Definition shaped (r : rows) : Prop :=
  Forall (fun kv => status_shape (status (snd kv))) r.

(** A host whose only state is the unit [apache] of [fs_apache]. *)
Definition host_apache : host :=
  {| opts := [(VStr "saltenv", VNone); (VStr "cachedir", VStr "/var/cache")];
     new_saltcheck := fun _ => Ok env_echo;
     split_input := fun v => Ok [v];
     show_top := Ok [(VStr "base", VList [VStr "apache"; VStr "apache"])];
     files :=
       {| isdir := fun p => String.eqb p "/var/cache/files/base";
          isfile :=
            fun p =>
              String.eqb p "/var/cache/files/base/saltcheck-tests/apache.tst";
          os_walk := fun _ => [];
          abspath := fun p => p;
          render :=
            fun _ =>
              Ok (VDict [(VStr "echo_test_hello", VDict echo_test_hello);
                         (VStr "skipped", VDict [(VStr "skip", VBool true)])])
       |};
     now := fun n => (Z.of_nat n, Z.of_nat n + 2)%Z |}.

(** The tests of that unit as loaded. *)
Definition tests_apache : dict :=
  [(VStr "echo_test_hello", VDict echo_test_hello);
   (VStr "skipped", VDict [(VStr "skip", VBool true)])].

(** A skipped test with a well-formed operation name. *)
Definition skipped_test : test_def :=
  [(VStr "module_and_function", VStr "pkg.upgrade_available");
   (VStr "assertion", VStr "assertFalse");
   (VStr "skip", VBool true)].

(** A test with an assertion that needs no expected value. *)
Definition echo_not_empty : test_def :=
  [(VStr "module_and_function", VStr "test.echo");
   (VStr "args", VList [VStr "hello"]);
   (VStr "assertion", VStr "assertNotEmpty")].

(** * Properties *)

(** ** Comparisons raise nothing but [TypeError] *)

Lemma py_in_raises x c e : py_in x c = Raise e -> e = TypeError.
Proof.
  destruct c as [| b | z | s | l | d]; simpl; try congruence.
  - destruct x; congruence.
  - destruct (hashable x); congruence.
Qed.

Lemma py_compare_raises op a :
  forall b e, py_compare op a b = Raise e -> e = TypeError.
Proof.
  induction a as [| x | x | s | l IH | d _] using value_induction;
    intros b e; destruct b as [| y | y | t | m | d']; simpl;
    try congruence.
  revert m. induction IH as [| x l Hx _ IHl]; intros m.
  - destruct m; congruence.
  - destruct m as [| y m]; [congruence |].
    destruct (py_eq x y); [apply IHl | apply Hx].
Qed.

(** ** The verdict of an assertion routine *)

Lemma pass_or_fail_message_begins s :
  pass_or_fail_message s -> begins_pass_or_fail s.
Proof.
  intros [-> | [msg ->]]; [left | right]; reflexivity.
Qed.

Lemma catch_assertion_assert cond msg :
  exists s, catch_assertion (py_assert cond msg) = Ok s /\
            pass_or_fail_message s.
Proof.
  destruct cond; simpl.
  - exists "Pass". split; [reflexivity | left; reflexivity].
  - exists ("Fail: " ++ msg). split; [reflexivity | right; now exists msg].
Qed.

Lemma message_of_assert cond msg :
  message_or_type_error (catch_assertion (py_assert cond msg)).
Proof.
  destruct (catch_assertion_assert cond msg) as [s [-> H]]. exact H.
Qed.

Lemma message_of_comparison (c : result bool) (k : bool -> bool) msg :
  (forall e, c = Raise e -> e = TypeError) ->
  message_or_type_error (catch_assertion (x <- c ;; py_assert (k x) msg)).
Proof.
  intros H. destruct c as [b | e]; simpl.
  - apply message_of_assert.
  - rewrite (H e eq_refl). reflexivity.
Qed.

Lemma verdict_of_assert cond msg :
  returns_verdict (catch_assertion (py_assert cond msg)).
Proof.
  destruct (catch_assertion_assert cond msg) as [s [E H]].
  exists s. split; [exact E | now apply pass_or_fail_message_begins].
Qed.

Lemma verdict_of_comparison (c : result bool) (k : bool -> bool) msg :
  (forall e, c = Raise e -> e = TypeError) ->
  verdict_or_type_error c
    (catch_assertion (x <- c ;; py_assert (k x) msg)).
Proof.
  intros H. destruct c as [b | e]; simpl.
  - apply verdict_of_assert.
  - rewrite (H e eq_refl). split; reflexivity.
Qed.

Ltac unfold_routines :=
  unfold __assert_equal, __assert_not_equal, __assert_true, __assert_false,
    __assert_empty, __assert_not_empty, __assert_in, __assert_not_in,
    __assert_greater, __assert_greater_equal, __assert_less,
    __assert_less_equal.

(** C1, as the code has it: assertEqual, assertNotEqual, assertTrue,
    assertFalse, assertEmpty and assertNotEmpty return, for every expected
    and actual value and every print option, a text beginning with "Pass"
    or "Fail".  assertIn, assertNotIn and the four ordering assertions do so
    when the membership test or the ordering is defined on the operands;
    when it raises [TypeError], the routine raises it too: the routines
    catch [AssertionError] only. *)
Theorem assertion_routines_verdict (expected actual print : value) :
  returns_verdict (__assert_equal expected actual print) /\
  returns_verdict (__assert_not_equal expected actual print) /\
  returns_verdict (__assert_true actual) /\
  returns_verdict (__assert_false actual) /\
  returns_verdict (__assert_empty actual) /\
  returns_verdict (__assert_not_empty actual) /\
  verdict_or_type_error (py_in expected actual)
    (__assert_in expected actual print) /\
  verdict_or_type_error (py_in expected actual)
    (__assert_not_in expected actual print) /\
  verdict_or_type_error (py_compare OpGt expected actual)
    (__assert_greater expected actual) /\
  verdict_or_type_error (py_compare OpGe expected actual)
    (__assert_greater_equal expected actual) /\
  verdict_or_type_error (py_compare OpLt expected actual)
    (__assert_less expected actual) /\
  verdict_or_type_error (py_compare OpLe expected actual)
    (__assert_less_equal expected actual).
Proof.
  unfold_routines.
  repeat split;
    try (destruct (truthy print));
    try apply verdict_of_assert;
    try (apply (verdict_of_comparison _ (fun x => x)); apply py_in_raises);
    try (apply (verdict_of_comparison _ negb); apply py_in_raises);
    apply (verdict_of_comparison _ (fun x => x)); apply py_compare_raises.
Qed.

(** C1, the claim as stated fails: assertIn on an actual value that is not
    a container raises. *)
Lemma assert_in_raises_on_int :
  __assert_in (VStr "dev") (VInt 5) (VBool true) = Raise TypeError /\
  ~ returns_verdict (__assert_in (VStr "dev") (VInt 5) (VBool true)).
Proof.
  split; [reflexivity |].
  intros [s [H _]]. discriminate H.
Qed.

(** C2: on the text "False" assertFalse computes [bool("False")], which is
    true, and fails. *)
Theorem assert_false_text_False :
  __assert_false (VStr "False") = Ok "Fail: True not False".
Proof. reflexivity. Qed.

(** Every text but the empty one is treated alike by assertFalse. *)
Lemma assert_false_nonempty_text (s : string) :
  s <> "" -> __assert_false (VStr s) = Ok "Fail: True not False".
Proof.
  intros H. unfold __assert_false. simpl.
  destruct (String.eqb_spec s ""); [contradiction | reflexivity].
Qed.

(** C5: when the operation returned None, the coercion raises the
    [TypeError] of [type(None)(expected)]; only [ValueError] is caught. *)
Theorem cast_to_none_raises :
  _cast_expected_to_returned_type (VStr "hello") VNone = Raise TypeError.
Proof. reflexivity. Qed.

(** The failures the coercion does absorb: a [ValueError] of the
    constructor leaves the expected value as it was. *)
Lemma cast_keeps_expected_on_ValueError (expected returned : value) :
  ret_type returned expected = Raise ValueError ->
  _cast_expected_to_returned_type expected returned = Ok expected.
Proof.
  intros H. unfold _cast_expected_to_returned_type.
  destruct (py_eq expected (VStr "False") && is_bool returned) eqn:E.
  - apply andb_prop in E. destruct E as [_ E].
    destruct returned; simpl in E; try discriminate E.
    simpl in H. discriminate H.
  - rewrite H. reflexivity.
Qed.

(** ** The call of the operation *)

(** C4, the claim as stated fails: with a section and a result that is not
    a mapping, the actual value is the result itself, not the text
    "False". *)
Lemma call_with_section_keeps_non_mapping :
  _call_salt_command env_five (VStr "test.echo") VNone (VDict [])
    (VStr "shell") = Ok (VInt 5) /\
  _call_salt_command env_five (VStr "test.echo") VNone (VDict [])
    (VStr "shell") <> Ok (VStr "False").
Proof. split; [reflexivity | discriminate]. Qed.

(** The call, step by step: the arguments are spread, the operation is
    called once, and a mapping it returns is looked up at the section. *)
Lemma call_salt_command_steps (env : salt_env)
    (fn args kwargs section : value) :
  _call_salt_command env fn args kwargs section =
    (a <- positional args ;;
     k <- keywords kwargs ;;
     value <- cmd env fn a k ;;
     match value with
     | VDict d =>
         if truthy section then
           if hashable section
           then Ok (VStr (py_str (dict_get section d (VBool false))))
           else Raise TypeError
         else Ok value
     | _ => Ok value
     end).
Proof.
  unfold _call_salt_command, positional, keywords.
  destruct (truthy args), (truthy kwargs); cbn [andb negb bind].
  - destruct (py_iter args); cbn [bind]; [| reflexivity].
    destruct (star_kwargs kwargs); reflexivity.
  - destruct (py_iter args); reflexivity.
  - destruct (star_kwargs kwargs); reflexivity.
  - reflexivity.
Qed.

(** C4, as the code has it: let the operation, called with the arguments
    of the invocation, return [v], and let the section be a text that is
    not empty.  When [v] is a mapping the actual value is the text form of
    the value at that key, and the text "False" when the key is missing;
    when [v] is not a mapping the actual value is [v] itself. *)
Theorem call_with_section (env : salt_env) (fn args kwargs : value)
    (section : string) (a : list value) (k : dict) (v : value) :
  section <> "" ->
  positional args = Ok a ->
  keywords kwargs = Ok k ->
  cmd env fn a k = Ok v ->
  _call_salt_command env fn args kwargs (VStr section) =
    Ok (match v with
        | VDict d =>
            match dict_find (VStr section) d with
            | Some x => VStr (py_str x)
            | None => VStr "False"
            end
        | _ => v
        end).
Proof.
  intros H Ha Hk Hv.
  rewrite call_salt_command_steps, Ha, Hk. cbn [bind]. rewrite Hv. cbn [bind].
  assert (T : truthy (VStr section) = true).
  { simpl. destruct (String.eqb_spec section ""); [contradiction | reflexivity]. }
  rewrite T. cbn [hashable].
  destruct v; try reflexivity.
  unfold dict_get. destruct (dict_find (VStr section) d); reflexivity.
Qed.

Lemma call_with_section_witness :
  _call_salt_command env_user_info (VStr "user.info") (VList [VStr "root"])
    (VDict []) (VStr "shell") = Ok (VStr "/bin/bash") /\
  _call_salt_command env_user_info (VStr "user.info") (VList [VStr "root"])
    (VDict []) (VStr "home") = Ok (VStr "False") /\
  _call_salt_command env_five (VStr "test.echo") (VList [VStr "root"])
    (VDict []) (VStr "shell") = Ok (VInt 5).
Proof.
  split; [| split].
  - apply (call_with_section env_user_info (VStr "user.info")
             (VList [VStr "root"]) (VDict []) "shell" [VStr "root"] []
             (VDict [(VStr "shell", VStr "/bin/bash");
                     (VStr "active", VBool true)]));
      [discriminate | reflexivity | reflexivity | reflexivity].
  - apply (call_with_section env_user_info (VStr "user.info")
             (VList [VStr "root"]) (VDict []) "home" [VStr "root"] []
             (VDict [(VStr "shell", VStr "/bin/bash");
                     (VStr "active", VBool true)]));
      [discriminate | reflexivity | reflexivity | reflexivity].
  - apply (call_with_section env_five (VStr "test.echo")
             (VList [VStr "root"]) (VDict []) "shell" [VStr "root"] []
             (VInt 5));
      [discriminate | reflexivity | reflexivity | reflexivity].
Defined.

(** ** Skipped tests *)

(** C9: the validator unpacks [m_and_f.split('.')] into two names before
    it compares the score, also for a skipped test; an operation name
    without a dot raises [ValueError] there and no "Skip" is returned. *)
Theorem skip_with_undotted_operation_raises (env : salt_env)
    (start end_ : Z) :
  run_test env skipped_without_dot start end_ = Raise ValueError.
Proof. reflexivity. Qed.

(** ** The steps of [run_test] *)

Lemma run_test_steps (env : salt_env) (td : test_def) (start end_ : Z) :
  run_test env td start end_ =
    (valid <- __is_valid_test env td ;;
     if valid then
       if truthy (get td "skip" (VBool false))
       then Ok {| status := "Skip"; duration := 0 |}
       else
         mod_and_func <- getitem td "module_and_function" ;;
         kwargs <- inject_data td "pillar-data" "pillar" (initial_kwargs td) ;;
         kwargs <- inject_data td "grain-data" "grain" kwargs ;;
         assertion <- effective_assertion td mod_and_func ;;
         actual_return <-
           _call_salt_command env mod_and_func (get td "args" VNone) kwargs
             (get td "assertion_section" VNone) ;;
         expected_return <-
           coerce assertion (get td "expected-return" VNone) actual_return ;;
         value <-
           dispatch assertion expected_return actual_return
             (get td "print_result" (VBool true)) ;;
         Ok {| status := value; duration := (end_ - start)%Z |}
     else Ok {| status := "Fail - invalid test";
                duration := (end_ - start)%Z |}).
Proof. reflexivity. Qed.

(** ** What a valid test holds *)

Lemma in_four_in_twelve (a : value) :
  in_list a (map VStr ["assertEmpty"; "assertNotEmpty";
                       "assertTrue"; "assertFalse"]) = true ->
  in_list a assertions_list = true.
Proof.
  unfold in_list, assertions_list. simpl. intros H.
  repeat (apply orb_prop in H; destruct H as [H | H]);
    rewrite H; repeat rewrite orb_true_r; reflexivity.
Qed.

Ltac split_validity H :=
  repeat (match type of H with
          | context [if ?c then _ else _] =>
              destruct c eqn:?; cbn [bind] in H
          | context [bind ?c _] =>
              lazymatch c with
              | bind _ _ => fail
              | _ => destruct c as [? | ?]; cbn [bind] in H
              end
          | context [Z.b2z ?b] => is_var b; destruct b; cbn [Z.b2z] in H
          end; try discriminate H).

Lemma valid_test_fields (env : salt_env) (td : test_def) :
  __is_valid_test env td = Ok true ->
  truthy (get td "skip" (VBool false)) = false ->
  exists mf a,
    getitem td "module_and_function" = Ok mf /\
    effective_assertion td mf = Ok a /\
    in_list a assertions_list = true.
Proof.
  intros Hv Hs. unfold __is_valid_test in Hv. rewrite Hs in Hv.
  unfold effective_assertion, getitem.
  unfold get, dict_get in *.
  destruct (dict_find (VStr "module_and_function") td) as [mf |].
  - exists mf.
    destruct (in_list mf [alias]) eqn:Ealias.
    + exists (VStr "assertNotEmpty"). repeat split.
    + unfold alias in Ealias. rewrite Ealias in Hv.
      destruct (dict_find (VStr "assertion") td) as [a |].
      * exists a. split; [reflexivity | split; [reflexivity |]].
        destruct (in_list a assertions_list) eqn:Ea; [reflexivity |].
        destruct (in_list a (map VStr ["assertEmpty"; "assertNotEmpty";
                                       "assertTrue"; "assertFalse"])) eqn:E4.
        { apply in_four_in_twelve in E4. congruence. }
        exfalso. split_validity Hv.
      * exfalso. cbn [in_list assertions_list existsb map py_eq orb] in Hv.
        split_validity Hv.
  - exfalso. cbn [in_list assertions_list existsb map py_eq orb truthy] in Hv.
    split_validity Hv.
Qed.

Lemma in_four_no_coercion (a : value) :
  in_list a (map VStr ["assertEmpty"; "assertNotEmpty";
                       "assertTrue"; "assertFalse"]) = true ->
  in_list a no_coercion = true.
Proof.
  unfold in_list, no_coercion. simpl. intros H.
  repeat (apply orb_prop in H; destruct H as [H | H]);
    rewrite H; repeat rewrite orb_true_r; reflexivity.
Qed.

(** A valid test whose assertion is coerced holds an expected value. *)
Lemma valid_test_expected (env : salt_env) (td : test_def) (mf a : value) :
  __is_valid_test env td = Ok true ->
  truthy (get td "skip" (VBool false)) = false ->
  getitem td "module_and_function" = Ok mf ->
  effective_assertion td mf = Ok a ->
  in_list a no_coercion = false ->
  is_None (get td "expected-return" VNone) = false.
Proof.
  intros Hv Hs Hm Ha Hn. unfold __is_valid_test in Hv. rewrite Hs in Hv.
  unfold effective_assertion, getitem in *.
  unfold get, dict_get in *.
  destruct (dict_find (VStr "module_and_function") td) as [mf' |];
    [| discriminate Hm].
  injection Hm as ->.
  destruct (in_list mf [alias]) eqn:Ealias.
  { injection Ha as <-. discriminate Hn. }
  unfold alias in Ealias. rewrite Ealias in Hv.
  destruct (dict_find (VStr "assertion") td) as [a' |]; [| discriminate Ha].
  injection Ha as ->.
  destruct (in_list a (map VStr ["assertEmpty"; "assertNotEmpty";
                                 "assertTrue"; "assertFalse"])) eqn:E4.
  { apply in_four_no_coercion in E4. congruence. }
  destruct (is_None match dict_find (VStr "expected-return") td with
                    | Some v => v
                    | None => VNone
                    end) eqn:En; [| reflexivity].
  exfalso. split_validity Hv.
Qed.

(** ** The verdict of the dispatch *)

Lemma routines_message (expected actual print : value) :
  message_or_type_error (__assert_equal expected actual print) /\
  message_or_type_error (__assert_not_equal expected actual print) /\
  message_or_type_error (__assert_true actual) /\
  message_or_type_error (__assert_false actual) /\
  message_or_type_error (__assert_in expected actual print) /\
  message_or_type_error (__assert_not_in expected actual print) /\
  message_or_type_error (__assert_greater expected actual) /\
  message_or_type_error (__assert_greater_equal expected actual) /\
  message_or_type_error (__assert_less expected actual) /\
  message_or_type_error (__assert_less_equal expected actual) /\
  message_or_type_error (__assert_empty actual) /\
  message_or_type_error (__assert_not_empty actual).
Proof.
  unfold_routines.
  repeat split;
    try (destruct (truthy print));
    try apply message_of_assert;
    try (apply (message_of_comparison _ (fun x => x)); apply py_in_raises);
    try (apply (message_of_comparison _ negb); apply py_in_raises);
    apply (message_of_comparison _ (fun x => x)); apply py_compare_raises.
Qed.

Lemma dispatch_message (a expected actual print : value) :
  in_list a assertions_list = true ->
  message_or_type_error (dispatch a expected actual print).
Proof.
  intros H. unfold in_list, assertions_list in H. simpl in H.
  pose proof (routines_message expected actual print) as R.
  unfold dispatch.
  repeat match goal with
         | |- context [if py_eq a ?n then _ else _] =>
             destruct (py_eq a n); [tauto |]
         end.
  discriminate H.
Qed.

Lemma fail_message_not_bad (s : string) :
  pass_or_fail_message s -> s <> "Fail - bad assertion".
Proof.
  intros [-> | [msg ->]]; discriminate.
Qed.

(** ** The status of a record *)

Lemma status_shape_not_bad (s : string) :
  status_shape s -> s <> "Fail - bad assertion".
Proof.
  intros [-> | [-> | H]]; try discriminate.
  now apply fail_message_not_bad.
Qed.

Lemma run_test_status_shape (env : salt_env) (td : test_def)
    (start end_ : Z) (r : test_result) :
  run_test env td start end_ = Ok r -> status_shape (status r).
Proof.
  rewrite run_test_steps.
  destruct (__is_valid_test env td) as [[|] | x] eqn:Hv; cbn [bind];
    [| intros [= <-]; right; left; reflexivity | discriminate].
  destruct (truthy (get td "skip" (VBool false))) eqn:Hs.
  { intros [= <-]. left. reflexivity. }
  destruct (valid_test_fields env td Hv Hs) as [mf [a [Hmf [Ha Hin]]]].
  rewrite Hmf. cbn [bind].
  destruct (inject_data td "pillar-data" "pillar" (initial_kwargs td))
    as [kw1 |]; cbn [bind]; [| discriminate].
  destruct (inject_data td "grain-data" "grain" kw1)
    as [kw2 |]; cbn [bind]; [| discriminate].
  rewrite Ha. cbn [bind].
  destruct (_call_salt_command env mf (get td "args" VNone) kw2
              (get td "assertion_section" VNone))
    as [actual |]; cbn [bind]; [| discriminate].
  destruct (coerce a (get td "expected-return" VNone) actual)
    as [expected |]; cbn [bind]; [| discriminate].
  pose proof (dispatch_message a expected actual
                (get td "print_result" (VBool true)) Hin) as D.
  destruct (dispatch a expected actual (get td "print_result" (VBool true)))
    as [v |]; cbn [bind]; [| discriminate].
  intros [= <-]. right. right. exact D.
Qed.

(** C10: a test definition that passes the validator and is not skipped
    has its operation name, and the assertion run_test goes on with is one
    of the twelve of [assertions_list]; hence no record of run_test has the
    status "Fail - bad assertion". *)
Theorem bad_assertion_unreachable (env : salt_env) (td : test_def)
    (start end_ : Z) :
  __is_valid_test env td = Ok true ->
  truthy (get td "skip" (VBool false)) = false ->
  (exists mf a,
      getitem td "module_and_function" = Ok mf /\
      effective_assertion td mf = Ok a /\
      in_list a assertions_list = true) /\
  (forall r, run_test env td start end_ = Ok r ->
             status r <> "Fail - bad assertion").
Proof.
  intros Hv Hs. split.
  - now apply valid_test_fields with (env := env).
  - intros r Hr. apply status_shape_not_bad.
    now apply run_test_status_shape with (1 := Hr).
Qed.

(** The same for every test definition, valid or not, skipped or not. *)
Lemma run_test_never_bad_assertion (env : salt_env) (td : test_def)
    (start end_ : Z) (r : test_result) :
  run_test env td start end_ = Ok r -> status r <> "Fail - bad assertion".
Proof.
  intros Hr. apply status_shape_not_bad.
  now apply run_test_status_shape with (1 := Hr).
Qed.

Lemma bad_assertion_unreachable_witness :
  (exists mf a,
      getitem echo_test_hello "module_and_function" = Ok mf /\
      effective_assertion echo_test_hello mf = Ok a /\
      in_list a assertions_list = true) /\
  (forall r, run_test env_echo echo_test_hello 10 25 = Ok r ->
             status r <> "Fail - bad assertion").
Proof.
  apply (bad_assertion_unreachable env_echo echo_test_hello 10 25);
    reflexivity.
Defined.

(** ** The special alias *)

(** C6: when [module_and_function] is "saltcheck.state_apply", a valid test
    that is not skipped gets the verdict of assertNotEmpty on the value the
    call returned, whatever [assertion] the definition declares. *)
Theorem state_apply_runs_assert_not_empty (env : salt_env) (td : test_def)
    (start end_ : Z) (kw1 kw2 actual : value) :
  getitem td "module_and_function" = Ok alias ->
  __is_valid_test env td = Ok true ->
  truthy (get td "skip" (VBool false)) = false ->
  inject_data td "pillar-data" "pillar" (initial_kwargs td) = Ok kw1 ->
  inject_data td "grain-data" "grain" kw1 = Ok kw2 ->
  _call_salt_command env alias (get td "args" VNone) kw2
    (get td "assertion_section" VNone) = Ok actual ->
  exists value,
    __assert_not_empty actual = Ok value /\
    run_test env td start end_ =
      Ok {| status := value; duration := (end_ - start)%Z |}.
Proof.
  intros Hmf Hv Hs H1 H2 Hc.
  rewrite run_test_steps, Hv. cbn [bind]. rewrite Hs, Hmf. cbn [bind].
  rewrite H1. cbn [bind]. rewrite H2. cbn [bind].
  change (effective_assertion td alias) with (Ok (A := value) (VStr "assertNotEmpty")).
  cbn [bind]. rewrite Hc. cbn [bind].
  change (coerce (VStr "assertNotEmpty") (get td "expected-return" VNone) actual)
    with (Ok (A := value) (get td "expected-return" VNone)).
  cbn [bind].
  change (dispatch (VStr "assertNotEmpty") (get td "expected-return" VNone)
            actual (get td "print_result" (VBool true)))
    with (__assert_not_empty actual).
  unfold __assert_not_empty.
  destruct (truthy actual); cbn; eexists; split; reflexivity.
Qed.

Lemma state_apply_runs_assert_not_empty_witness :
  exists value,
    __assert_not_empty (VStr "common") = Ok value /\
    run_test env_echo setup_test_environment 10 25 =
      Ok {| status := value; duration := 15 |}.
Proof.
  apply (state_apply_runs_assert_not_empty env_echo setup_test_environment
           10 25 (VDict [(VStr "pillar", VDict [(VStr "data", VStr "value")])])
           (VDict [(VStr "pillar", VDict [(VStr "data", VStr "value")])])
           (VStr "common"));
    reflexivity.
Defined.

(** ** What can propagate out of [run_test] *)


Lemma split_m_and_f_truthy (v : value) (m f : string) :
  split_m_and_f v = Ok (m, f) -> truthy v = true.
Proof.
  destruct v; try discriminate. simpl.
  destruct s; [discriminate | reflexivity].
Qed.






Lemma str_keys_dict_set (k : string) (v : value) (d : dict) :
  str_keys d = true -> str_keys (dict_set (VStr k) v d) = true.
Proof.
  induction d as [| [k' v'] d IH]; simpl; [reflexivity |].
  intros H. apply andb_prop in H. destruct H as [H1 H2].
  destruct k'; try discriminate H1.
  destruct (String.eqb k s); simpl; [exact H2 | now apply IH].
Qed.

Lemma str_keys_dict_pop (k : value) (d : dict) :
  str_keys d = true -> str_keys (dict_pop k d) = true.
Proof.
  induction d as [| [k' v'] d IH]; simpl; [reflexivity |].
  intros H. apply andb_prop in H. destruct H as [H1 H2].
  destruct (py_eq k k'); simpl; [exact H2 |].
  rewrite H1. now apply IH.
Qed.








(** ** Texts, order and sorting *)

Lemma append_assoc (a b c : string) : (a ++ b) ++ c = a ++ b ++ c.
Proof.
  induction a as [| x a IH]; simpl; [reflexivity | now rewrite IH].
Qed.

Lemma ascii_compare_refl (a : ascii) : Ascii.compare a a = Eq.
Proof. unfold Ascii.compare. apply N.compare_refl. Qed.

Lemma ascii_compare_lt_trans (a b c : ascii) :
  Ascii.compare a b = Lt -> Ascii.compare b c = Lt -> Ascii.compare a c = Lt.
Proof.
  unfold Ascii.compare. rewrite !N.compare_lt_iff. apply N.lt_trans.
Qed.

Lemma string_compare_not_gt_trans (s1 : string) :
  forall s2 s3,
    String.compare s1 s2 <> Gt -> String.compare s2 s3 <> Gt ->
    String.compare s1 s3 <> Gt.
Proof.
  induction s1 as [| a s1 IH]; intros [| b s2] [| c s3]; simpl;
    try congruence.
  destruct (Ascii.compare a b) eqn:Eab; try congruence.
  - apply Ascii.compare_eq_iff in Eab. subst b.
    destruct (Ascii.compare a c); try congruence. apply IH.
  - destruct (Ascii.compare b c) eqn:Ebc; try congruence.
    + apply Ascii.compare_eq_iff in Ebc. subst c. rewrite Eab. congruence.
    + rewrite (ascii_compare_lt_trans a b c Eab Ebc). congruence.
Qed.

Lemma leb_prop_iff (x y : string) : leb_prop x y <-> String.compare x y <> Gt.
Proof.
  unfold leb_prop, String.leb.
  destruct (String.compare x y); split; congruence.
Qed.

Lemma leb_prop_trans (x y z : string) :
  leb_prop x y -> leb_prop y z -> leb_prop x z.
Proof.
  rewrite !leb_prop_iff. apply string_compare_not_gt_trans.
Qed.

Lemma insert_perm (x : string) (l : list string) :
  Permutation (insert x l) (x :: l).
Proof.
  induction l as [| y l IH]; simpl; [apply Permutation_refl |].
  destruct (String.leb x y); [apply Permutation_refl |].
  apply perm_trans with (y :: x :: l); [now apply perm_skip | apply perm_swap].
Qed.

Lemma sort_perm (l : list string) : Permutation (sort l) l.
Proof.
  induction l as [| x l IH]; simpl; [apply perm_nil |].
  apply perm_trans with (x :: sort l);
    [apply insert_perm | now apply perm_skip].
Qed.

Lemma insert_sorted (x : string) (l : list string) :
  StronglySorted leb_prop l -> StronglySorted leb_prop (insert x l).
Proof.
  induction 1 as [| y l Hl IH Hy]; simpl.
  - repeat constructor.
  - destruct (String.leb x y) eqn:E.
    + constructor; [now constructor |].
      constructor; [exact E |].
      apply Forall_impl with (2 := Hy). intros z. now apply leb_prop_trans.
    + constructor; [exact IH |].
      apply Permutation_Forall with (x :: l);
        [apply Permutation_sym, insert_perm |].
      constructor; [| exact Hy].
      destruct (String.leb_total x y) as [T | T]; [congruence | exact T].
Qed.

Lemma sort_sorted (l : list string) : StronglySorted leb_prop (sort l).
Proof.
  induction l as [| x l IH]; simpl; [constructor | now apply insert_sorted].
Qed.

Lemma filter_sorted (p : string -> bool) (l : list string) :
  StronglySorted leb_prop l -> StronglySorted leb_prop (filter p l).
Proof.
  induction 1 as [| y l Hl IH Hy]; simpl; [constructor |].
  destruct (p y); [| exact IH].
  constructor; [exact IH |].
  rewrite Forall_forall in *. intros z Hz. apply Hy.
  now apply filter_In in Hz.
Qed.

Lemma filter_perm (p : string -> bool) (l m : list string) :
  Permutation l m -> Permutation (filter p l) (filter p m).
Proof.
  induction 1 as [| x l m _ IH | x y l | l m n _ IH1 _ IH2]; simpl.
  - apply perm_nil.
  - destruct (p x); [now apply perm_skip | exact IH].
  - destruct (p x), (p y); try apply Permutation_refl. apply perm_swap.
  - now apply perm_trans with (filter p m).
Qed.

(** [endswith] tells the texts that end with the suffix. *)
Lemma substring_append (p suffix : string) :
  substring (String.length p) (String.length suffix) (p ++ suffix) = suffix.
Proof.
  induction p as [| c p IH]; simpl; [| exact IH].
  induction suffix as [| c s IH]; simpl; [reflexivity | now rewrite IH].
Qed.

Lemma length_append (a b : string) :
  String.length (a ++ b) = String.length a + String.length b.
Proof.
  induction a as [| c a IH]; simpl; [reflexivity | now rewrite IH].
Qed.

Lemma substring_split (s : string) :
  forall k, k <= String.length s ->
            s = substring 0 k s ++ substring k (String.length s - k) s.
Proof.
  induction s as [| c s IH]; intros [| k] Hk; simpl in *.
  - reflexivity.
  - lia.
  - f_equal. clear. induction s as [| c s IH]; simpl; [reflexivity |].
    now rewrite <- IH.
  - f_equal. apply IH. lia.
Qed.

Lemma endswith_spec (s suffix : string) :
  endswith s suffix = true <-> exists p, s = p ++ suffix.
Proof.
  unfold endswith. split.
  - intros H. apply andb_prop in H. destruct H as [L E].
    apply Nat.leb_le in L. apply String.eqb_eq in E.
    exists (substring 0 (String.length s - String.length suffix) s).
    pose proof (substring_split s (String.length s - String.length suffix))
      as S.
    replace (String.length s - (String.length s - String.length suffix))
      with (String.length suffix) in S by lia.
    rewrite E in S. apply S. lia.
  - intros [p ->]. rewrite length_append.
    replace (String.length p + String.length suffix - String.length suffix)
      with (String.length p) by lia.
    rewrite substring_append, String.eqb_refl, andb_true_r.
    apply Nat.leb_le. lia.
Qed.

(** ** Discovery of the test files of the unit ["a.b"] *)

Lemma gather_files_collected (fs : file_system) (self : loader)
    (path : string) :
  collected fs (path ++ "/saltcheck-tests")
    (test_files (_gather_files fs self path)).
Proof.
  unfold collected, _gather_files. cbn [test_files].
  change (path ++ sep ++ "saltcheck-tests") with (path ++ "/saltcheck-tests").
  generalize (os_walk fs (path ++ "/saltcheck-tests")). intros w.
  exists (map (fun entry =>
                 filter (fun f => endswith f ".tst") (sort (snd entry))) w).
  split.
  - induction w as [| e w IH]; simpl; constructor; [| exact IH].
    split.
    + apply filter_perm, sort_perm.
    + apply filter_sorted, sort_sorted.
  - induction w as [| e w IH]; cbn [flat_map map combine concat fst snd];
      [reflexivity | now rewrite IH].
Qed.

Lemma add_loop_named (fs : file_system) (roots : list string) :
  forall self,
    test_files (add_loop fs "a" "b" false roots self) =
      (test_files self ++
       flat_map (fun R =>
                   if isdir fs (R ++ "/a")
                   then filter (isfile fs) [init_tst R; named_tst R]
                   else []) roots)%list.
Proof.
  induction roots as [| R roots IH]; intros self.
  - simpl. now rewrite app_nil_r.
  - cbn [add_loop flat_map]. cbn [String.eqb negb Ascii.eqb Bool.eqb].
    change (R ++ sep ++ _convert_sls_to_path "a") with (R ++ "/a").
    destruct (isdir fs (R ++ "/a")); [| now rewrite IH].
    change ((R ++ "/a") ++ sep ++ "b" ++ sep ++ "saltcheck-tests" ++ sep
              ++ "init.tst")
      with ((R ++ "/a") ++ "/b/saltcheck-tests/init.tst").
    change ((R ++ "/a") ++ sep ++ "saltcheck-tests" ++ sep ++ "b" ++ ".tst")
      with ((R ++ "/a") ++ "/saltcheck-tests/b.tst").
    rewrite !append_assoc.
    change (R ++ "/a" ++ "/b/saltcheck-tests/init.tst") with (init_tst R).
    change (R ++ "/a" ++ "/saltcheck-tests/b.tst") with (named_tst R).
    rewrite IH. cbn [filter].
    destruct (isfile fs (init_tst R)), (isfile fs (named_tst R));
      cbn [append_file test_files]; rewrite <- ?app_assoc; reflexivity.
Qed.

Lemma add_loop_all (fs : file_system) (self : loader) (R : string)
    (post : list string) :
  forall pre,
    Forall (fun P => isdir fs (P ++ "/a") = false) pre ->
    isdir fs (R ++ "/a") = true ->
    add_loop fs "a" "b" true (pre ++ R :: post) self =
      _gather_files fs self (R ++ "/a/b").
Proof.
  intros pre Hpre HR. induction Hpre as [| P pre HP _ IH].
  - cbn [app add_loop]. cbn [String.eqb negb Ascii.eqb Bool.eqb].
    change (R ++ sep ++ _convert_sls_to_path "a") with (R ++ "/a").
    rewrite HR.
    change ((R ++ "/a") ++ sep ++ "b") with ((R ++ "/a") ++ "/b").
    now rewrite append_assoc.
  - cbn [app add_loop]. cbn [String.eqb negb Ascii.eqb Bool.eqb].
    change (P ++ sep ++ _convert_sls_to_path "a") with (P ++ "/a").
    now rewrite HP.
Qed.

Lemma add_loop_none (fs : file_system) (all : bool) (roots : list string) :
  forall self,
    Forall (fun P => isdir fs (P ++ "/a") = false) roots ->
    add_loop fs "a" "b" all roots self = self.
Proof.
  intros self H. induction H as [| P roots HP _ IH]; [reflexivity |].
  cbn [add_loop]. cbn [String.eqb negb Ascii.eqb Bool.eqb].
  change (P ++ sep ++ _convert_sls_to_path "a") with (P ++ "/a").
  now rewrite HP.
Qed.

Lemma flat_map_ext_in {A B : Type} (f g : A -> list B) (l : list A) :
  (forall x, In x l -> f x = g x) -> flat_map f l = flat_map g l.
Proof.
  induction l as [| x l IH]; intros H; simpl; [reflexivity |].
  rewrite (H x (or_introl eq_refl)). f_equal.
  apply IH. intros y Hy. apply H. now right.
Qed.

(** C7: for the unit "a.b".  Without [check_all], and on a file system
    where a file exists only under a directory, the files added are, root
    after root over all the search roots, those of
    [R/a/b/saltcheck-tests/init.tst] and [R/a/saltcheck-tests/b.tst] that
    exist, in this order.  With [check_all], the files are those gathered
    under [R/a/b/saltcheck-tests] for the first root [R] whose [R/a] is a
    directory: every file ending in ".tst" the walk lists, sorted by name
    within each directory; the roots after [R] are not looked at.  When no
    root has such a directory, nothing is added. *)
Theorem discovery_of_a_b (fs : file_system) (self : loader) :
  ((forall R, In R (search_paths self) ->
              isdir fs (R ++ "/a") = false ->
              isfile fs (init_tst R) = false /\
              isfile fs (named_tst R) = false) ->
   test_files (add_test_files_for_sls fs self "a.b" false) =
     (test_files self ++
      flat_map (fun R => filter (isfile fs) [init_tst R; named_tst R])
        (search_paths self))%list) /\
  (forall pre R post,
      search_paths self = (pre ++ R :: post)%list ->
      Forall (fun P => isdir fs (P ++ "/a") = false) pre ->
      isdir fs (R ++ "/a") = true ->
      collected fs (R ++ "/a/b/saltcheck-tests")
        (test_files (add_test_files_for_sls fs self "a.b" true))) /\
  (forall all,
      Forall (fun P => isdir fs (P ++ "/a") = false) (search_paths self) ->
      test_files (add_test_files_for_sls fs self "a.b" all) =
        test_files self).
Proof.
  unfold add_test_files_for_sls.
  change (rpartition "a.b") with ("a", ".", "b"). cbn [fst snd].
  repeat split.
  - intros H. rewrite add_loop_named. f_equal.
    apply flat_map_ext_in. intros R HR.
    destruct (isdir fs (R ++ "/a")) eqn:D; [reflexivity |].
    destruct (H R HR D) as [H1 H2]. cbn [filter]. now rewrite H1, H2.
  - intros pre R post E Hpre HR. rewrite E.
    rewrite add_loop_all by assumption.
    change (R ++ "/a/b/saltcheck-tests")
      with (R ++ "/a/b" ++ "/saltcheck-tests").
    rewrite <- append_assoc. apply gather_files_collected.
  - intros all H. now rewrite add_loop_none.
Qed.

Lemma discovery_of_a_b_witness :
  test_files (add_test_files_for_sls fs_srv loader_srv "a.b" false) =
    ["/srv/a/b/saltcheck-tests/init.tst"] /\
  collected fs_srv "/srv/a/b/saltcheck-tests"
    (test_files (add_test_files_for_sls fs_srv loader_srv "a.b" true)).
Proof.
  destruct (discovery_of_a_b fs_srv loader_srv) as [A [B _]]. split.
  - rewrite A; [reflexivity |].
    intros R HR D. simpl in HR.
    destruct HR as [<- | [<- | [<- | []]]];
      try (split; reflexivity).
    discriminate D.
  - apply (B ["/none"] "/srv" ["/other"]); try reflexivity.
    repeat constructor.
Defined.

(** ** Merging the rendered files *)

Lemma loads_dumps_dict (d : list (value * value)) :
  loads_dumps (VDict d) = VDict (loads_dumps_items d []).
Proof.
  reflexivity.
Qed.

Lemma dict_keys_dict_set (k : string) (w : value) (d : dict) :
  str_keys d = true ->
  (In (VStr k) (dict_keys d) /\
   dict_keys (dict_set (VStr k) w d) = dict_keys d) \/
  (~ In (VStr k) (dict_keys d) /\
   dict_set (VStr k) w d = (d ++ [(VStr k, w)])%list).
Proof.
  induction d as [| [k0 v0] d IH]; simpl; intros H.
  - right. split; [tauto | reflexivity].
  - apply andb_prop in H. destruct H as [H0 H].
    destruct k0; try discriminate H0.
    destruct (String.eqb_spec k s) as [-> | N].
    + left. split; [now left | reflexivity].
    + destruct (IH H) as [[I E] | [I E]].
      * left. split; [now right | simpl; now rewrite E].
      * right. split; [| now rewrite E].
        intros [F | F]; [congruence | contradiction].
Qed.

Lemma text_keyed_dict_set (k : string) (w : value) (d : dict) :
  text_keyed d -> text_keyed (dict_set (VStr k) w d).
Proof.
  intros [S N]. split; [now apply str_keys_dict_set |].
  destruct (dict_keys_dict_set k w d S) as [[_ E] | [I E]].
  - now rewrite E.
  - rewrite E. unfold dict_keys. rewrite map_app. simpl.
    apply Permutation_NoDup with (VStr k :: map fst d).
    + apply Permutation_cons_append.
    + now constructor.
Qed.

Lemma loads_dumps_items_text_keyed (d : list (value * value)) :
  forall acc, text_keyed acc -> text_keyed (loads_dumps_items d acc).
Proof.
  induction d as [| [k x] d IH]; intros acc H; simpl; [exact H |].
  apply IH. now apply text_keyed_dict_set.
Qed.

Lemma loads_dumps_text_keyed (t : value) (d : dict) :
  loads_dumps t = VDict d -> text_keyed d.
Proof.
  destruct t as [| | | | l | d0]; try discriminate.
  rewrite loads_dumps_dict. intros [= <-].
  apply loads_dumps_items_text_keyed. split; [reflexivity | constructor].
Qed.

Lemma str_keys_app (d e : dict) :
  str_keys (d ++ e)%list = str_keys d && str_keys e.
Proof. unfold str_keys. apply forallb_app. Qed.

(** Merging a text-keyed dictionary into the empty one gives it back. *)
Lemma update_all_fresh (d : dict) :
  forall acc,
    str_keys acc = true -> str_keys d = true ->
    NoDup (dict_keys acc ++ dict_keys d)%list ->
    update_all acc d = (acc ++ d)%list.
Proof.
  unfold update_all.
  induction d as [| [k w] d IH]; intros acc Sa Sd N; simpl.
  - now rewrite app_nil_r.
  - simpl in Sd. apply andb_prop in Sd. destruct Sd as [Sk Sd].
    destruct k; try discriminate Sk.
    destruct (dict_keys_dict_set s w acc Sa) as [[I _] | [_ E]].
    + exfalso. simpl in N. apply NoDup_remove_2 in N.
      apply N, in_or_app. now left.
    + rewrite E, IH.
      * now rewrite <- app_assoc.
      * rewrite str_keys_app, Sa. reflexivity.
      * exact Sd.
      * unfold dict_keys in *. rewrite map_app, <- app_assoc. exact N.
Qed.

Lemma dict_set_other (k : value) (w : value) (x : string) (v : value) :
  py_eq k (VStr x) = false ->
  forall (d : dict) (i : nat),
    nth_error d i = Some (VStr x, v) ->
    nth_error (dict_set k w d) i = Some (VStr x, v).
Proof.
  intros K. induction d as [| [k0 v0] d IH]; intros [| i] H; simpl in *;
    try discriminate H.
  - injection H as -> ->. now rewrite K.
  - destruct (py_eq k k0); simpl; [exact H | now apply IH].
Qed.

Lemma dict_set_same (x : string) (w v : value) :
  forall (d : dict) (i : nat),
    text_keyed d ->
    nth_error d i = Some (VStr x, v) ->
    nth_error (dict_set (VStr x) w d) i = Some (VStr x, w).
Proof.
  induction d as [| [k0 v0] d IH]; intros [| i] [S N] H; simpl in *;
    try discriminate H.
  - injection H as -> ->. simpl. now rewrite String.eqb_refl.
  - apply andb_prop in S. destruct S as [S0 S].
    destruct k0; try discriminate S0.
    destruct (String.eqb_spec x s) as [-> | _]; simpl.
    + exfalso. inversion N as [| ? ? Nin _]; subst. apply Nin.
      apply nth_error_In in H.
      change (VStr s) with (fst (VStr s, v)). now apply in_map.
    + apply IH; [| exact H]. split; [exact S | now inversion N].
Qed.

Lemma update_all_overrides (x : string) (v2 : value) (i : nat) (d2 : dict) :
  forall acc cur,
    text_keyed acc -> text_keyed d2 ->
    nth_error acc i = Some (VStr x, cur) ->
    In (VStr x, v2) d2 \/ (cur = v2 /\ ~ In (VStr x) (dict_keys d2)) ->
    text_keyed (update_all acc d2) /\
    nth_error (update_all acc d2) i = Some (VStr x, v2).
Proof.
  unfold update_all.
  induction d2 as [| [k w] d2 IH]; intros acc cur Ha [S N] Hi Hx; simpl.
  - destruct Hx as [[] | [-> _]]. now split.
  - simpl in S. apply andb_prop in S. destruct S as [Sk S].
    destruct k as [| | | k | |]; try discriminate Sk.
    simpl in N. inversion N as [| ? ? Nin N']; subst.
    assert (T : text_keyed d2) by now split.
    pose proof (text_keyed_dict_set k w acc Ha) as Ha'.
    destruct (String.eqb_spec k x) as [-> | D].
    + assert (w = v2) as ->.
      { destruct Hx as [[E | E] | [_ E]].
        - congruence.
        - exfalso. apply Nin.
          change (VStr x) with (fst (VStr x, v2)). now apply in_map.
        - exfalso. apply E. now left. }
      apply (IH _ v2 Ha' T).
      * now apply dict_set_same with (v := cur).
      * right. split; [reflexivity | exact Nin].
    + apply (IH _ cur Ha' T).
      * apply dict_set_other; [| exact Hi].
        simpl. now apply String.eqb_neq.
      * destruct Hx as [[E | E] | [E1 E2]].
        -- congruence.
        -- now left.
        -- right. split; [exact E1 |]. intros F. apply E2. now right.
Qed.

(** C8: two rendered files are loaded in order, the first holds a test
    named [x] at place [i], the second holds a test named [x] too.  The
    merged mapping then has [x] at place [i] with the value of the second
    file, and at no other place. *)
Theorem merge_overrides (fs : file_system) (self : loader)
    (f1 f2 : string) (t1 t2 : value) (d1 d2 : dict)
    (x : string) (i : nat) (v1 v2 : value) :
  test_files self = [f1; f2] ->
  render fs f1 = Ok t1 -> loads_dumps t1 = VDict d1 ->
  render fs f2 = Ok t2 -> loads_dumps t2 = VDict d2 ->
  nth_error d1 i = Some (VStr x, v1) ->
  In (VStr x, v2) d2 ->
  exists self',
    load_test_suite fs self = Ok self' /\
    nth_error (test_dict self') i = Some (VStr x, v2) /\
    (forall j v, nth_error (test_dict self') j = Some (VStr x, v) -> j = i).
Proof.
  intros F R1 L1 R2 L2 H1 H2.
  pose proof (loads_dumps_text_keyed t1 d1 L1) as T1.
  pose proof (loads_dumps_text_keyed t2 d2 L2) as T2.
  unfold load_test_suite. cbn [test_files search_paths test_dict].
  rewrite F. cbn [fold_left bind].
  unfold _load_file_salt_rendered.
  cbn [test_files search_paths test_dict]. rewrite R1. cbn [bind].
  rewrite L1. cbn [items bind test_files search_paths test_dict].
  rewrite R2. cbn [bind].
  rewrite L2. cbn [items bind test_files search_paths test_dict].
  eexists. split; [reflexivity |]. cbn [test_dict].
  rewrite (update_all_fresh d1 []); [| reflexivity | apply T1 | apply T1].
  cbn [app].
  destruct (update_all_overrides x v2 i d2 d1 v1 T1 T2 H1 (or_introl H2))
    as [[_ N] E].
  split; [exact E |].
  intros j v Hj.
  apply (proj1 (NoDup_nth_error (dict_keys (update_all d1 d2))) N);
    unfold dict_keys.
  - rewrite length_map. apply nth_error_Some. congruence.
  - now rewrite !nth_error_map, Hj, E.
Qed.

Lemma merge_overrides_witness :
  exists self',
    load_test_suite fs_two loader_two = Ok self' /\
    nth_error (test_dict self') 1 =
      Some (VStr "x", VDict [(VStr "assertion", VStr "assertFalse")]) /\
    (forall j v, nth_error (test_dict self') j = Some (VStr "x", v) -> j = 1).
Proof.
  apply (merge_overrides fs_two loader_two "one.tst" "two.tst"
           (VDict [(VStr "w", VDict [(VStr "skip", VBool true)]);
                   (VStr "x", VDict [(VStr "assertion", VStr "assertTrue")])])
           (VDict [(VStr "x", VDict [(VStr "assertion", VStr "assertFalse")]);
                   (VStr "y", VDict [])])
           [(VStr "w", VDict [(VStr "skip", VBool true)]);
            (VStr "x", VDict [(VStr "assertion", VStr "assertTrue")])]
           [(VStr "x", VDict [(VStr "assertion", VStr "assertFalse")]);
            (VStr "y", VDict [])]
           "x" 1 (VDict [(VStr "assertion", VStr "assertTrue")])
           (VDict [(VStr "assertion", VStr "assertFalse")]));
    try reflexivity.
  now left.
Defined.


(** * Further properties of the validator and of [run_test] *)

Lemma falsy_not_alias (v : value) :
  truthy v = false -> in_list v [VStr "saltcheck.state_apply"] = false.
Proof.
  intros H. unfold in_list. simpl. rewrite orb_false_r.
  destruct v; try reflexivity. simpl in *.
  destruct (String.eqb_spec s "saltcheck.state_apply") as [-> | _];
    [discriminate H | reflexivity].
Qed.

Lemma is_valid_without_operation (env : salt_env) (td : test_def) :
  truthy (get td "module_and_function" VNone) = false ->
  truthy (get td "skip" (VBool false)) = false ->
  __is_valid_test env td = Ok false.
Proof.
  intros Hm Hs. unfold __is_valid_test.
  rewrite Hs, Hm, (falsy_not_alias _ Hm). cbn [bind].
  repeat match goal with
         | |- context [if ?c then _ else _] => destruct c
         end; reflexivity.
Qed.

(** X1: a test definition that is not skipped and has no operation name
    (the key is missing, or its value is empty or null) is reported as
    "Fail - invalid test", whatever the collaborators would answer: they
    are not asked. *)
Theorem run_test_without_operation (env : salt_env) (td : test_def)
    (start end_ : Z) :
  truthy (get td "module_and_function" VNone) = false ->
  truthy (get td "skip" (VBool false)) = false ->
  run_test env td start end_ =
    Ok {| status := "Fail - invalid test"; duration := (end_ - start)%Z |}.
Proof.
  intros Hm Hs. rewrite run_test_steps.
  now rewrite (is_valid_without_operation env td Hm Hs).
Qed.

Lemma run_test_without_operation_witness :
  run_test env_lookup_fails without_operation 10 25 =
    Ok {| status := "Fail - invalid test"; duration := 15 |}.
Proof.
  apply (run_test_without_operation env_lookup_fails without_operation 10 25);
    reflexivity.
Defined.

(** X2: a test that passes the validator, is not skipped, does not name the
    alias and asserts something else than the four assertions without
    expectation has all six points: its operation name splits into a module
    and a function that the collaborator both knows, its assertion is one
    of the twelve, and its expected-return is present and not null. *)
Theorem standard_test_valid (env : salt_env) (td : test_def) :
  __is_valid_test env td = Ok true ->
  truthy (get td "skip" (VBool false)) = false ->
  in_list (get td "module_and_function" VNone) [alias] = false ->
  in_list (get td "assertion" VNone) no_expectation = false ->
  exists m f,
    split_m_and_f (get td "module_and_function" VNone) = Ok (m, f) /\
    _is_valid_module env m = Ok true /\
    _is_valid_function env m f = Ok true /\
    in_list (get td "assertion" VNone) assertions_list = true /\
    dict_has (VStr "expected-return") td = true /\
    is_None (get td "expected-return" VNone) = false.
Proof.
  intros Hv Hs Ha H4. unfold __is_valid_test in Hv.
  unfold alias in Ha. unfold no_expectation in H4.
  rewrite Hs, Ha, H4 in Hv.
  destruct (truthy (get td "module_and_function" VNone));
    [| split_validity Hv].
  destruct (split_m_and_f (get td "module_and_function" VNone))
    as [[m f] |]; cbn [bind fst snd] in Hv; [| discriminate Hv].
  exists m, f.
  destruct (_is_valid_module env m) as [[|] |]; cbn [bind] in Hv;
    try discriminate Hv;
    destruct (_is_valid_function env m f) as [[|] |]; cbn [bind] in Hv;
    try discriminate Hv;
    destruct (in_list (get td "assertion" VNone) assertions_list);
    destruct (dict_has (VStr "expected-return") td);
    destruct (is_None (get td "expected-return" VNone));
    try discriminate Hv.
  repeat split.
Qed.

Lemma standard_test_valid_witness :
  exists m f,
    split_m_and_f (get echo_test_hello "module_and_function" VNone)
      = Ok (m, f) /\
    _is_valid_module env_echo m = Ok true /\
    _is_valid_function env_echo m f = Ok true /\
    in_list (get echo_test_hello "assertion" VNone) assertions_list = true /\
    dict_has (VStr "expected-return") echo_test_hello = true /\
    is_None (get echo_test_hello "expected-return" VNone) = false.
Proof.
  apply (standard_test_valid env_echo echo_test_hello); reflexivity.
Defined.

Lemma contains_char_append (c : ascii) (a b : string) :
  contains_char c (a ++ b) = contains_char c a || contains_char c b.
Proof.
  induction a as [| x a IH]; simpl; [reflexivity |].
  now rewrite IH, orb_assoc.
Qed.

(** X3: when the lookup of the functions of a module raises a
    SaltException, [_is_valid_function] answers False for every module and
    function name; any other exception of the lookup propagates. *)
Theorem is_valid_function_lookup_error (env : salt_env)
    (module_name function : string) (e : exn) :
  list_functions env (VStr module_name) = Raise e ->
  _is_valid_function env module_name function =
    if is_SaltException e then Ok false else Raise e.
Proof.
  intros H. unfold _is_valid_function, try_except. rewrite H.
  destruct (is_SaltException e); cbn [bind]; [| reflexivity].
  f_equal. unfold in_list. cbn [existsb py_eq]. rewrite orb_false_r.
  apply String.eqb_neq. intros E.
  apply (f_equal (contains_char ".")) in E.
  rewrite contains_char_append in E. simpl in E.
  rewrite orb_true_r in E. discriminate E.
Qed.

Lemma is_valid_function_lookup_error_witness :
  _is_valid_function env_lookup_fails "test" "echo" = Ok false.
Proof.
  apply (is_valid_function_lookup_error env_lookup_fails "test" "echo"
           SaltException).
  reflexivity.
Defined.

(** * Further properties of the coercion *)

Lemma uint_val_pos (d : Decimal.uint) :
  forall p, uint_val (Z.pos p) d = Z.pos (Pos.of_uint_acc d p).
Proof.
  induction d; intros p; cbn [uint_val Pos.of_uint_acc]; try reflexivity;
    rewrite <- IHd; f_equal; lia.
Qed.

Lemma uint_val_of_uint (d : Decimal.uint) : uint_val 0 d = Z.of_uint d.
Proof.
  unfold Z.of_uint.
  induction d; cbn [uint_val Pos.of_uint]; try reflexivity;
    match goal with
    | |- uint_val ?a d = _ =>
        let a' := eval compute in a in change a with a'
    end;
    try exact IHd; now rewrite (uint_val_pos d).
Qed.

Lemma digits_val_uint (d : Decimal.uint) :
  forall acc,
    digits_val acc true (list_ascii_of_string (NilEmpty.string_of_uint d)) =
      Some (uint_val acc d).
Proof.
  induction d; intros acc; simpl; try reflexivity; apply IHd.
Qed.

Lemma digits_val_nonnil (d : Decimal.uint) (acc : Z) :
  d <> Decimal.Nil ->
  digits_val acc false (list_ascii_of_string (NilEmpty.string_of_uint d)) =
    Some (uint_val acc d).
Proof.
  destruct d; intros H; try contradiction; simpl; apply digits_val_uint.
Qed.

Lemma uint_digits (d : Decimal.uint) :
  Forall (fun c => is_digit c = true)
    (list_ascii_of_string (NilEmpty.string_of_uint d)).
Proof.
  induction d; simpl; constructor; try reflexivity; exact IHd.
Qed.

Lemma digit_not_space (c : ascii) : is_digit c = true -> is_space c = false.
Proof.
  unfold is_digit, is_space. intros H.
  apply andb_prop in H. destruct H as [H1 H2].
  apply Nat.leb_le in H1. apply Nat.leb_le in H2.
  apply orb_false_intro;
    [apply andb_false_intro2; apply Nat.leb_gt; lia
    | apply Nat.eqb_neq; lia].
Qed.

Lemma lstrip_no_space (l : list ascii) :
  Forall (fun c => is_space c = false) l -> lstrip l = l.
Proof.
  intros H. destruct H as [| c l Hc _]; simpl; [reflexivity |].
  now rewrite Hc.
Qed.

Lemma strip_no_space (l : list ascii) :
  Forall (fun c => is_space c = false) l -> strip l = l.
Proof.
  intros H. unfold strip. rewrite (lstrip_no_space l H).
  rewrite lstrip_no_space; [apply rev_involutive |].
  now apply Forall_rev.
Qed.

Lemma uint_no_space (d : Decimal.uint) :
  Forall (fun c => is_space c = false)
    (list_ascii_of_string (NilEmpty.string_of_uint d)).
Proof.
  apply Forall_impl with (2 := uint_digits d). exact digit_not_space.
Qed.

Lemma int_of_text_uint (d : Decimal.uint) :
  d <> Decimal.Nil ->
  int_of_text (NilEmpty.string_of_uint d) = Some (Z.of_uint d).
Proof.
  intros H. unfold int_of_text.
  rewrite (strip_no_space _ (uint_no_space d)).
  rewrite <- uint_val_of_uint, <- (digits_val_nonnil d 0 H).
  destruct d; try contradiction; reflexivity.
Qed.

Lemma int_of_text_neg_uint (d : Decimal.uint) :
  d <> Decimal.Nil ->
  int_of_text (String "-" (NilEmpty.string_of_uint d)) =
    Some (- Z.of_uint d)%Z.
Proof.
  intros H. unfold int_of_text.
  rewrite strip_no_space.
  - cbn [list_ascii_of_string]. cbn [Ascii.eqb Bool.eqb].
    now rewrite (digits_val_nonnil d 0 H), uint_val_of_uint.
  - constructor; [reflexivity | apply uint_no_space].
Qed.

(** [int] reads back the text [str] writes for an integer. *)
Lemma int_of_text_str_of_Z (z : Z) : int_of_text (str_of_Z z) = Some z.
Proof.
  unfold str_of_Z. rewrite <- (DecimalZ.of_to z) at 2.
  destruct z as [| p | p]; [reflexivity | |]; simpl Z.to_int;
    unfold NilZero.string_of_int, NilZero.string_of_uint, Z.of_int;
    pose proof (Unsigned.to_uint_nonnil p) as N;
    destruct (Pos.to_uint p) eqn:E; try contradiction;
    rewrite <- E in *;
    [now apply int_of_text_uint .. | | | | | | | | | |];
    now apply int_of_text_neg_uint.
Qed.

(** X4: when the operation returned an integer, the text that [str]
    writes for an integer is coerced to that integer, so assertEqual with
    the decimal text of the result as expected value passes. *)
Theorem cast_decimal_text_to_int (z n : Z) (print : value) :
  _cast_expected_to_returned_type (VStr (py_str (VInt z))) (VInt n) =
    Ok (VInt z) /\
  __assert_equal (VInt z) (VInt z) print = Ok "Pass".
Proof.
  split.
  - unfold _cast_expected_to_returned_type, try_except.
    rewrite andb_false_r. cbn [ret_type py_int py_str py_repr].
    now rewrite int_of_text_str_of_Z.
  - unfold __assert_equal. cbn [py_eq]. rewrite Z.eqb_refl.
    destruct (truthy print); reflexivity.
Qed.

(** X5: when the operation returned a boolean, an expected text is coerced
    to False if it is empty or is the text "False", written just so, and to
    True otherwise. *)
Theorem cast_text_to_bool (s : string) (b : bool) :
  _cast_expected_to_returned_type (VStr s) (VBool b) =
    Ok (VBool (negb (String.eqb s "") && negb (String.eqb s "False"))).
Proof.
  unfold _cast_expected_to_returned_type, try_except.
  cbn [py_eq is_bool]. rewrite andb_true_r.
  destruct (String.eqb_spec s "False") as [-> | N]; [reflexivity |].
  cbn [ret_type truthy]. now rewrite andb_true_r.
Qed.

Lemma ret_type_same_type (returned v w : value) :
  ret_type returned v = Ok w -> same_type w returned = true.
Proof.
  destruct returned; simpl; try discriminate; try (now intros [= <-]).
  - destruct v; simpl; try discriminate; try (now intros [= <-]).
    destruct (int_of_text s); [now intros [= <-] | discriminate].
  - unfold py_list. destruct (py_iter v); cbn [bind];
      [now intros [= <-] | discriminate].
  - unfold py_dict. destruct v; try (now intros [= <-]);
      destruct (py_iter _); cbn [bind]; try discriminate;
      destruct (dict_of_pairs [] _); cbn [bind]; try discriminate;
      now intros [= <-].
Qed.

(** X6: what the coercion returns is a value of the type of the result of
    the operation, or the expected value as it was given. *)
Theorem cast_type (expected returned v : value) :
  _cast_expected_to_returned_type expected returned = Ok v ->
  same_type v returned = true \/ v = expected.
Proof.
  unfold _cast_expected_to_returned_type, try_except.
  match goal with
  | |- match ?c with _ => _ end = _ -> _ => destruct c as [w | e] eqn:R
  end.
  - intros [= <-]. left. now apply ret_type_same_type with (1 := R).
  - destruct (is_ValueError e); [| discriminate].
    intros [= <-]. now right.
Qed.

Lemma cast_type_witness :
  same_type (VStr "hello") (VInt 5) = true \/ VStr "hello" = VStr "hello".
Proof.
  apply (cast_type (VStr "hello") (VInt 5) (VStr "hello")). reflexivity.
Defined.

(** * Further properties of the assertion routines *)

(** X7: with a print option that is false, assertEqual, assertNotEqual,
    assertIn and assertNotIn answer "Pass" or one fixed text each: the
    expected and actual values are not written into the message. *)
Theorem quiet_messages (expected actual print : value) :
  truthy print = false ->
  (__assert_equal expected actual print = Ok "Pass" \/
   __assert_equal expected actual print = Ok "Fail: Result is not equal") /\
  (__assert_not_equal expected actual print = Ok "Pass" \/
   __assert_not_equal expected actual print = Ok "Fail: Result is equal") /\
  (__assert_in expected actual print = Ok "Pass" \/
   __assert_in expected actual print = Ok "Fail: Result not found" \/
   __assert_in expected actual print = Raise TypeError) /\
  (__assert_not_in expected actual print = Ok "Pass" \/
   __assert_not_in expected actual print = Ok "Fail: Result was found" \/
   __assert_not_in expected actual print = Raise TypeError).
Proof.
  intros H. unfold_routines. rewrite H.
  repeat split.
  - destruct (py_eq expected actual); [left | right]; reflexivity.
  - destruct (py_eq expected actual); [right | left]; reflexivity.
  - destruct (py_in expected actual) as [[|] | e] eqn:E; cbn; auto.
    apply py_in_raises in E. subst e. auto.
  - destruct (py_in expected actual) as [[|] | e] eqn:E; cbn; auto.
    apply py_in_raises in E. subst e. auto.
Qed.

Lemma quiet_messages_witness :
  (__assert_equal (VStr "secret") (VStr "other") (VBool false) = Ok "Pass" \/
   __assert_equal (VStr "secret") (VStr "other") (VBool false)
     = Ok "Fail: Result is not equal") /\
  (__assert_not_equal (VStr "secret") (VStr "other") (VBool false)
     = Ok "Pass" \/
   __assert_not_equal (VStr "secret") (VStr "other") (VBool false)
     = Ok "Fail: Result is equal") /\
  (__assert_in (VStr "secret") (VStr "other") (VBool false) = Ok "Pass" \/
   __assert_in (VStr "secret") (VStr "other") (VBool false)
     = Ok "Fail: Result not found" \/
   __assert_in (VStr "secret") (VStr "other") (VBool false)
     = Raise TypeError) /\
  (__assert_not_in (VStr "secret") (VStr "other") (VBool false)
     = Ok "Pass" \/
   __assert_not_in (VStr "secret") (VStr "other") (VBool false)
     = Ok "Fail: Result was found" \/
   __assert_not_in (VStr "secret") (VStr "other") (VBool false)
     = Raise TypeError).
Proof.
  apply (quiet_messages (VStr "secret") (VStr "other") (VBool false)).
  reflexivity.
Defined.

Lemma cmp_Z_neg (op : cmp_op) (x y : Z) :
  cmp_Z op x y = negb (cmp_Z (op_neg op) x y).
Proof.
  destruct op; simpl;
    rewrite ?Z.ltb_antisym, ?Z.leb_antisym, ?negb_involutive; reflexivity.
Qed.

Lemma ltb_not_leb (s t : string) : String.ltb s t = negb (String.leb t s).
Proof.
  unfold String.ltb, String.leb. rewrite (String.compare_antisym s t).
  destruct (String.compare t s); reflexivity.
Qed.

Lemma cmp_text_neg (op : cmp_op) (s t : string) :
  cmp_text op s t = negb (cmp_text (op_neg op) s t).
Proof.
  destruct op; simpl; rewrite ?ltb_not_leb, ?negb_involutive; reflexivity.
Qed.

Lemma pass_or_not (c1 c2 : bool) (m1 m2 : string) :
  c2 = negb c1 ->
  exactly_one_passes (catch_assertion (py_assert c1 m1))
    (catch_assertion (py_assert c2 m2)).
Proof.
  intros ->. unfold exactly_one_passes, passes.
  destruct c1; simpl; [left | right]; split; try reflexivity; discriminate.
Qed.

(** X8: the assertions come in opposite pairs.  Of assertEqual and
    assertNotEqual exactly one passes, and so for assertEmpty and
    assertNotEmpty, whatever the values; of assertIn and assertNotIn
    exactly one passes when the membership test is defined.  For the
    orderings this is stated for two integers and for two texts, whose
    orders are total: of assertGreater and assertLessEqual exactly one
    passes, and so for assertLess and assertGreaterEqual. *)
Theorem opposite_assertions (expected actual print : value) :
  exactly_one_passes (__assert_equal expected actual print)
    (__assert_not_equal expected actual print) /\
  exactly_one_passes (__assert_empty actual) (__assert_not_empty actual) /\
  match py_in expected actual with
  | Ok _ =>
      exactly_one_passes (__assert_in expected actual print)
        (__assert_not_in expected actual print)
  | Raise _ => True
  end /\
  (forall x y : Z,
      exactly_one_passes (__assert_greater (VInt x) (VInt y))
        (__assert_less_equal (VInt x) (VInt y)) /\
      exactly_one_passes (__assert_less (VInt x) (VInt y))
        (__assert_greater_equal (VInt x) (VInt y))) /\
  (forall s t : string,
      exactly_one_passes (__assert_greater (VStr s) (VStr t))
        (__assert_less_equal (VStr s) (VStr t)) /\
      exactly_one_passes (__assert_less (VStr s) (VStr t))
        (__assert_greater_equal (VStr s) (VStr t))).
Proof.
  unfold_routines. repeat split.
  - destruct (truthy print); now apply pass_or_not.
  - apply pass_or_not. now rewrite negb_involutive.
  - destruct (py_in expected actual) as [b |]; [| exact I].
    destruct (truthy print); cbn [bind]; now apply pass_or_not.
  - cbn [py_compare as_int bind]. apply pass_or_not.
    apply (cmp_Z_neg OpLe).
  - cbn [py_compare as_int bind]. apply pass_or_not.
    apply (cmp_Z_neg OpGe).
  - cbn [py_compare bind]. apply pass_or_not. apply (cmp_text_neg OpLe).
  - cbn [py_compare bind]. apply pass_or_not. apply (cmp_text_neg OpGe).
Qed.

(** * Further properties of the call of the operation *)

Lemma call_section_drills (env : salt_env) (fn args kwargs : value)
    (section : string) (d : dict) :
  section <> "" ->
  _call_salt_command env fn args kwargs VNone = Ok (VDict d) ->
  _call_salt_command env fn args kwargs (VStr section) =
    Ok (VStr (py_str (dict_get (VStr section) d (VBool false)))).
Proof.
  intros H. unfold _call_salt_command.
  assert (T : truthy (VStr section) = true).
  { simpl. destruct (String.eqb_spec section ""); [contradiction | reflexivity]. }
  rewrite T. simpl (truthy VNone). simpl (hashable _).
  match goal with
  | |- bind ?c _ = _ -> _ => destruct c as [v | e]; [| discriminate]
  end.
  cbn [bind]. destruct v; try discriminate. now intros [= ->].
Qed.

(** X9: with an assertion_section that is not empty and an operation that
    returned a mapping, the actual value is always a text; assertTrue
    compares it with [is True] and so fails, whatever the mapping holds at
    that key. *)
Theorem section_defeats_assert_true (env : salt_env)
    (fn args kwargs : value) (section : string) (d : dict) :
  section <> "" ->
  _call_salt_command env fn args kwargs VNone = Ok (VDict d) ->
  exists t,
    _call_salt_command env fn args kwargs (VStr section) = Ok (VStr t) /\
    __assert_true (VStr t) = Ok ("Fail: " ++ t ++ " not True").
Proof.
  intros H C. eexists. split.
  - exact (call_section_drills env fn args kwargs section d H C).
  - reflexivity.
Qed.

Lemma section_defeats_assert_true_witness :
  exists t,
    _call_salt_command env_user_info (VStr "user.info") VNone (VDict [])
      (VStr "active") = Ok (VStr t) /\
    __assert_true (VStr t) = Ok ("Fail: " ++ t ++ " not True").
Proof.
  apply (section_defeats_assert_true env_user_info (VStr "user.info") VNone
           (VDict []) "active"
           [(VStr "shell", VStr "/bin/bash"); (VStr "active", VBool true)]).
  - discriminate.
  - reflexivity.
Defined.

(** * Further properties of the keyword arguments *)

Lemma dict_find_set_same (k : string) (v : value) (d : dict) :
  dict_find (VStr k) (dict_set (VStr k) v d) = Some v.
Proof.
  induction d as [| [k0 v0] d IH]; cbn [dict_set dict_find].
  - cbn [py_eq]. now rewrite String.eqb_refl.
  - destruct (py_eq (VStr k) k0) eqn:E; cbn [dict_find]; now rewrite E.
Qed.

Lemma dict_find_set_other (k k2 : string) (v : value) (d : dict) :
  str_keys d = true -> k <> k2 ->
  dict_find (VStr k) (dict_set (VStr k2) v d) = dict_find (VStr k) d.
Proof.
  intros S N. induction d as [| [k0 v0] d IH]; cbn [dict_set dict_find].
  - cbn [py_eq]. apply String.eqb_neq in N. now rewrite N.
  - simpl in S. apply andb_prop in S. destruct S as [S0 S].
    destruct k0 as [| | | s | |]; try discriminate S0. cbn [py_eq].
    destruct (String.eqb_spec k2 s) as [-> | N2]; cbn [dict_find py_eq].
    + apply String.eqb_neq in N. now rewrite N.
    + destruct (String.eqb k s); [reflexivity | now apply IH].
Qed.

Lemma dict_find_absent (k : string) (d : dict) :
  str_keys d = true -> ~ In (VStr k) (dict_keys d) ->
  dict_find (VStr k) d = None.
Proof.
  intros S N. induction d as [| [k0 v0] d IH]; [reflexivity |].
  simpl in S. apply andb_prop in S. destruct S as [S0 S].
  destruct k0 as [| | | s | |]; try discriminate S0.
  cbn [dict_find py_eq].
  destruct (String.eqb_spec k s) as [-> | _].
  - exfalso. apply N. now left.
  - apply IH; [exact S |]. intros F. apply N. now right.
Qed.

Lemma dict_find_pop_same (k : string) (d : dict) :
  text_keyed d -> dict_find (VStr k) (dict_pop (VStr k) d) = None.
Proof.
  intros [S N]. induction d as [| [k0 v0] d IH]; [reflexivity |].
  simpl in S. apply andb_prop in S. destruct S as [S0 S].
  destruct k0 as [| | | s | |]; try discriminate S0.
  inversion N as [| ? ? Nin N']; subst.
  cbn [dict_pop py_eq].
  destruct (String.eqb_spec k s) as [-> | D].
  - now apply dict_find_absent.
  - cbn [dict_find py_eq]. apply String.eqb_neq in D. rewrite D.
    now apply IH.
Qed.

Lemma dict_find_pop_other (k k2 : string) (d : dict) :
  str_keys d = true -> k <> k2 ->
  dict_find (VStr k) (dict_pop (VStr k2) d) = dict_find (VStr k) d.
Proof.
  intros S N. induction d as [| [k0 v0] d IH]; [reflexivity |].
  simpl in S. apply andb_prop in S. destruct S as [S0 S].
  destruct k0 as [| | | s | |]; try discriminate S0.
  cbn [dict_pop py_eq].
  destruct (String.eqb_spec k2 s) as [-> | N2]; cbn [dict_find py_eq].
  - apply String.eqb_neq in N. now rewrite N.
  - destruct (String.eqb k s); [reflexivity | now apply IH].
Qed.

Lemma dict_keys_pop_incl (k : value) (d : dict) :
  incl (dict_keys (dict_pop k d)) (dict_keys d).
Proof.
  induction d as [| [k0 v0] d IH]; simpl; [apply incl_refl |].
  destruct (py_eq k k0); simpl.
  - apply incl_tl, incl_refl.
  - apply incl_cons; [now left | now apply incl_tl].
Qed.

Lemma text_keyed_dict_pop (k : value) (d : dict) :
  text_keyed d -> text_keyed (dict_pop k d).
Proof.
  intros [S N]. split; [now apply str_keys_dict_pop |].
  clear S. induction d as [| [k0 v0] d IH]; simpl; [constructor |].
  inversion N as [| ? ? Nin N']; subst.
  destruct (py_eq k k0); [exact N' |].
  simpl. constructor; [| now apply IH].
  intros F. apply Nin. now apply (dict_keys_pop_incl k d).
Qed.

(** X10: [run_test] hands the operation the keyword arguments of the test
    with the key [pillar] (and likewise [grain]) set to the pillar-data of
    the test when it has any, and without that key when it has none; the
    other keyword arguments stay as they are. *)
Theorem inject_data_sets_or_removes (td : test_def) (field key : string)
    (d : dict) :
  text_keyed d ->
  exists d',
    inject_data td field key (VDict d) = Ok (VDict d') /\
    text_keyed d' /\
    dict_find (VStr key) d' =
      (if truthy (get td field (VDict []))
       then Some (get td field (VDict [])) else None) /\
    (forall k, k <> key -> dict_find (VStr k) d' = dict_find (VStr k) d).
Proof.
  intros T. unfold inject_data.
  destruct (truthy (get td field (VDict []))).
  - eexists. split; [reflexivity |]. split; [| split].
    + now apply text_keyed_dict_set.
    + apply dict_find_set_same.
    + intros k N. apply dict_find_set_other; [apply T | exact N].
  - cbn [py_in hashable bind]. unfold dict_has.
    destruct (dict_find (VStr key) d) eqn:F; cbn [kwargs_pop].
    + eexists. split; [reflexivity |]. split; [| split].
      * now apply text_keyed_dict_pop.
      * now apply dict_find_pop_same.
      * intros k N. apply dict_find_pop_other; [apply T | exact N].
    + exists d. repeat split; try apply T. exact F.
Qed.

Lemma inject_data_sets_or_removes_witness :
  exists d',
    inject_data echo_test_hello "pillar-data" "pillar" (VDict stale_kwargs)
      = Ok (VDict d') /\
    text_keyed d' /\
    dict_find (VStr "pillar") d' =
      (if truthy (get echo_test_hello "pillar-data" (VDict []))
       then Some (get echo_test_hello "pillar-data" (VDict [])) else None) /\
    (forall k, k <> "pillar" ->
               dict_find (VStr k) d' = dict_find (VStr k) stale_kwargs).
Proof.
  apply (inject_data_sets_or_removes echo_test_hello "pillar-data" "pillar"
           stale_kwargs).
  split; [reflexivity |].
  repeat constructor; simpl; intuition discriminate.
Defined.

(** * Further properties of the test file loader *)

(** X11: [_gather_files] puts into [test_files] the absolute paths of the
    files whose name ends in ".tst" among those the walk of
    [filepath/saltcheck-tests] lists, and nothing else. *)
Theorem gather_files_membership (fs : file_system) (self : loader)
    (filepath p : string) :
  In p (test_files (_gather_files fs self filepath)) <->
  exists dirname filelist stem,
    In (dirname, filelist) (os_walk fs (filepath ++ "/saltcheck-tests")) /\
    In (stem ++ ".tst") filelist /\
    p = abspath fs (dirname ++ "/" ++ stem ++ ".tst").
Proof.
  unfold _gather_files. cbn [test_files].
  change (filepath ++ sep ++ "saltcheck-tests")
    with (filepath ++ "/saltcheck-tests").
  rewrite in_flat_map. split.
  - intros [[dirname filelist] [Hw Hp]]. cbn [fst snd] in Hp.
    apply in_map_iff in Hp. destruct Hp as [fname [<- Hf]].
    apply filter_In in Hf. destruct Hf as [Hf He].
    apply endswith_spec in He. destruct He as [stem ->].
    exists dirname, filelist, stem. repeat split; [exact Hw |].
    apply Permutation_in with (2 := Hf). apply sort_perm.
  - intros [dirname [filelist [stem [Hw [Hf ->]]]]].
    exists (dirname, filelist). split; [exact Hw |]. cbn [fst snd].
    apply in_map_iff. exists (stem ++ ".tst"). split; [reflexivity |].
    apply filter_In. split.
    + apply Permutation_in with (2 := Hf). apply Permutation_sym, sort_perm.
    + apply endswith_spec. now exists stem.
Qed.

Lemma split_last_dot_dotless (s : string) :
  contains_char "." s = false -> split_last_dot s = None.
Proof.
  induction s as [| c s IH]; cbn [contains_char split_last_dot];
    [reflexivity |].
  intros H. apply orb_false_elim in H. destruct H as [H1 H2].
  rewrite (IH H2). now rewrite Ascii.eqb_sym, H1.
Qed.

Lemma split_last_dot_dotted (head leaf : string) :
  contains_char "." leaf = false ->
  split_last_dot (head ++ "." ++ leaf) = Some (head, leaf).
Proof.
  intros H. induction head as [| c head IH].
  - change ("" ++ "." ++ leaf) with (String "." leaf).
    cbn [split_last_dot]. now rewrite (split_last_dot_dotless leaf H).
  - change (String c head ++ "." ++ leaf)
      with (String c (head ++ "." ++ leaf)).
    cbn [split_last_dot]. now rewrite IH.
Qed.

(** The loop over the search roots, the directory of the unit under a
    root being [dir]. *)
Lemma add_loop_closed_form (fs : file_system) (head leaf : string)
    (dir : string -> string) (roots : list string) :
  (forall R,
      (if negb (String.eqb head "")
       then R ++ sep ++ _convert_sls_to_path head else R) = dir R) ->
  forall self,
    test_files (add_loop fs head leaf false roots self) =
      List.app (test_files self)
        (flat_map (fun R =>
                     if isdir fs (dir R)
                     then filter (isfile fs)
                            [dir R ++ "/" ++ leaf
                               ++ "/saltcheck-tests/init.tst";
                             dir R ++ "/saltcheck-tests/" ++ leaf
                               ++ ".tst"]
                     else []) roots).
Proof.
  intros B. induction roots as [| R roots IH]; intros self.
  - simpl. now rewrite app_nil_r.
  - cbn [add_loop flat_map]. rewrite B.
    destruct (isdir fs (dir R)); [| now rewrite IH].
    change (dir R ++ sep ++ leaf ++ sep ++ "saltcheck-tests" ++ sep
              ++ "init.tst")
      with (dir R ++ "/" ++ leaf ++ "/saltcheck-tests/init.tst").
    change (dir R ++ sep ++ "saltcheck-tests" ++ sep ++ leaf ++ ".tst")
      with (dir R ++ "/saltcheck-tests/" ++ leaf ++ ".tst").
    rewrite IH. cbn [filter].
    destruct (isfile fs _), (isfile fs _);
      cbn [append_file test_files]; rewrite <- ?app_assoc; reflexivity.
Qed.

Lemma add_loop_first_dir (fs : file_system) (head leaf : string)
    (dir : string -> string) (self : loader) (R : string)
    (post : list string) :
  (forall P,
      (if negb (String.eqb head "")
       then P ++ sep ++ _convert_sls_to_path head else P) = dir P) ->
  forall pre,
    Forall (fun P => isdir fs (dir P) = false) pre ->
    isdir fs (dir R) = true ->
    add_loop fs head leaf true (pre ++ R :: post) self =
      _gather_files fs self (dir R ++ "/" ++ leaf).
Proof.
  intros B pre Hpre HR. induction Hpre as [| P pre HP _ IH];
    cbn [app add_loop]; rewrite B.
  - now rewrite HR.
  - now rewrite HP.
Qed.

Lemma add_loop_no_dir (fs : file_system) (head leaf : string)
    (dir : string -> string) (all : bool) (roots : list string)
    (self : loader) :
  (forall P,
      (if negb (String.eqb head "")
       then P ++ sep ++ _convert_sls_to_path head else P) = dir P) ->
  Forall (fun P => isdir fs (dir P) = false) roots ->
  add_loop fs head leaf all roots self = self.
Proof.
  intros B H. induction H as [| P roots HP _ IH]; [reflexivity |].
  cbn [add_loop]. rewrite B. now rewrite HP.
Qed.

(** ** From the name of a unit to its directory *)

Lemma convert_sls_to_path_app (s t : string) :
  _convert_sls_to_path (s ++ t) =
    _convert_sls_to_path s ++ _convert_sls_to_path t.
Proof.
  induction s as [| c s IH]; [reflexivity |].
  change (String c s ++ t) with (String c (s ++ t)).
  cbn [_convert_sls_to_path]. rewrite IH.
  destruct (Ascii.eqb c "."); [| reflexivity].
  unfold sep. now rewrite append_assoc.
Qed.

Lemma convert_sls_to_path_dotless (s : string) :
  contains_char "." s = false -> _convert_sls_to_path s = s.
Proof.
  induction s as [| c s IH]; cbn [contains_char _convert_sls_to_path];
    [reflexivity |].
  intros H. apply orb_false_elim in H. destruct H as [H1 H2].
  rewrite Ascii.eqb_sym, H1. now rewrite (IH H2).
Qed.

Lemma component_dotless (c : string) :
  component c = true -> c <> "" /\ contains_char "." c = false.
Proof.
  unfold component. intros H. apply andb_prop in H. destruct H as [H1 H2].
  split.
  - intros ->. discriminate H1.
  - now destruct (contains_char "." c).
Qed.

(** The dots between the components become separators, and nothing else
    changes. *)
Lemma convert_sls_to_path_components (parts : list string) :
  forallb component parts = true ->
  _convert_sls_to_path (String.concat "." parts) = String.concat "/" parts.
Proof.
  induction parts as [| p [| q qs] IH]; intros H.
  - reflexivity.
  - cbn [forallb] in H. apply andb_prop in H. destruct H as [H _].
    apply component_dotless in H. destruct H as [_ H].
    now apply convert_sls_to_path_dotless.
  - assert (Hp : component p = true)
      by (cbn [forallb] in H; now apply andb_prop in H).
    assert (Hq : forallb component (q :: qs) = true)
      by (cbn [forallb] in H; apply andb_prop in H; tauto).
    apply component_dotless in Hp. destruct Hp as [_ Hp].
    change (String.concat "." (p :: q :: qs))
      with (p ++ "." ++ String.concat "." (q :: qs)).
    change (String.concat "/" (p :: q :: qs))
      with (p ++ "/" ++ String.concat "/" (q :: qs)).
    rewrite convert_sls_to_path_app, (convert_sls_to_path_dotless p Hp).
    rewrite convert_sls_to_path_app, (IH Hq). reflexivity.
Qed.

Lemma unit_dir_concat (qs : list string) :
  forall R p, unit_dir R (p :: qs) = R ++ "/" ++ String.concat "/" (p :: qs).
Proof.
  induction qs as [| q qs IH]; intros R p; [reflexivity |].
  change (unit_dir R (p :: q :: qs)) with (unit_dir (R ++ "/" ++ p) (q :: qs)).
  rewrite IH.
  change (String.concat "/" (p :: q :: qs))
    with (p ++ "/" ++ String.concat "/" (q :: qs)).
  now rewrite !append_assoc.
Qed.

Lemma concat_last (leaf : string) (qs : list string) :
  forall p,
    String.concat "." ((p :: qs) ++ [leaf]) =
      String.concat "." (p :: qs) ++ "." ++ leaf.
Proof.
  induction qs as [| q qs IH]; intros p; [reflexivity |].
  change (String.concat "." ((p :: q :: qs) ++ [leaf]))
    with (p ++ "." ++ String.concat "." ((q :: qs) ++ [leaf])).
  rewrite IH.
  change (String.concat "." (p :: q :: qs))
    with (p ++ "." ++ String.concat "." (q :: qs)).
  now rewrite !append_assoc.
Qed.

Lemma concat_not_empty (p : string) (qs : list string) :
  p <> "" -> String.eqb (String.concat "." (p :: qs)) "" = false.
Proof.
  intros H. destruct p as [| c p]; [contradiction |].
  destruct qs; reflexivity.
Qed.

(** The name of a unit parts into the dotted components before the last
    dot and the leaf, and the directory the loop looks at under a root is
    the directory of the components. *)
Lemma unit_name_parts (parts : list string) (leaf : string) :
  forallb component parts = true ->
  contains_char "." leaf = false ->
  exists head,
    fst (fst (rpartition (unit_name parts leaf))) = head /\
    snd (rpartition (unit_name parts leaf)) = leaf /\
    forall R,
      (if negb (String.eqb head "")
       then R ++ sep ++ _convert_sls_to_path head else R) = unit_dir R parts.
Proof.
  intros Hp Hl. unfold unit_name, rpartition.
  destruct parts as [| p qs].
  - exists "". cbn [app String.concat].
    rewrite (split_last_dot_dotless leaf Hl). now repeat split.
  - exists (String.concat "." (p :: qs)).
    rewrite concat_last, (split_last_dot_dotted _ leaf Hl).
    repeat split. intros R.
    assert (Hc : component p = true)
      by (cbn [forallb] in Hp; now apply andb_prop in Hp).
    apply component_dotless in Hc. destruct Hc as [Hc _].
    rewrite (concat_not_empty p qs Hc). cbn [negb].
    rewrite (convert_sls_to_path_components (p :: qs) Hp), unit_dir_concat.
    reflexivity.
Qed.

(** X12: discovery for any unit name.  The name is made of components
    without dots, joined by dots, the last of which is [leaf]; the
    directory of the unit under a root [R] is [R] followed by the
    components before [leaf], one directory below the other.  Without
    [check_all], each root whose directory exists adds those of [init.tst]
    under [leaf/saltcheck-tests] and [leaf.tst] under [saltcheck-tests]
    that exist, in this order, and the other roots add nothing.  With
    [check_all], the loader is the one [_gather_files] leaves for the
    first root whose directory exists.  When no root has the directory
    the loader stays as it is. *)
Theorem discovery_of_any_unit (fs : file_system) (self : loader)
    (parts : list string) (leaf : string) :
  forallb component parts = true ->
  contains_char "." leaf = false ->
  test_files (add_test_files_for_sls fs self (unit_name parts leaf) false) =
    List.app (test_files self)
      (flat_map (fun R =>
                   if isdir fs (unit_dir R parts)
                   then filter (isfile fs)
                          [unit_dir R parts ++ "/" ++ leaf
                             ++ "/saltcheck-tests/init.tst";
                           unit_dir R parts ++ "/saltcheck-tests/" ++ leaf
                             ++ ".tst"]
                   else []) (search_paths self)) /\
  (forall pre R post,
      search_paths self = (pre ++ R :: post)%list ->
      Forall (fun P => isdir fs (unit_dir P parts) = false) pre ->
      isdir fs (unit_dir R parts) = true ->
      add_test_files_for_sls fs self (unit_name parts leaf) true =
        _gather_files fs self (unit_dir R parts ++ "/" ++ leaf)) /\
  (forall all,
      Forall (fun P => isdir fs (unit_dir P parts) = false)
        (search_paths self) ->
      add_test_files_for_sls fs self (unit_name parts leaf) all = self).
Proof.
  intros Hp Hl. unfold add_test_files_for_sls.
  destruct (unit_name_parts parts leaf Hp Hl) as [head [-> [-> B]]].
  split; [| split].
  - now apply (add_loop_closed_form fs head leaf (fun R => unit_dir R parts)).
  - intros pre R post -> Hpre HR.
    now apply (add_loop_first_dir fs head leaf (fun P => unit_dir P parts)).
  - intros all H.
    now apply (add_loop_no_dir fs head leaf (fun P => unit_dir P parts)).
Qed.

Lemma discovery_of_any_unit_witness :
  test_files
    (add_test_files_for_sls fs_nested loader_srv "apache.mods.ssl" false) =
    ["/srv/apache/mods/ssl/saltcheck-tests/init.tst";
     "/srv/apache/mods/saltcheck-tests/ssl.tst"] /\
  test_files
    (add_test_files_for_sls fs_nested loader_srv "apache.mods.ssl" true) =
    ["/srv/apache/mods/ssl/saltcheck-tests/a.tst";
     "/srv/apache/mods/ssl/saltcheck-tests/b.tst"].
Proof.
  destruct (discovery_of_any_unit fs_nested loader_srv ["apache"; "mods"]
              "ssl") as [A [B _]].
  - reflexivity.
  - reflexivity.
  - split.
    + exact A.
    + exact (f_equal test_files
               (B ["/none"] "/srv" ["/other"] eq_refl
                  (Forall_cons "/none" eq_refl (Forall_nil _)) eq_refl)).
Defined.

(** ** Loading the test suite *)

Lemma update_all_text_keyed (d : dict) :
  forall acc,
    text_keyed acc -> str_keys d = true -> text_keyed (update_all acc d).
Proof.
  unfold update_all.
  induction d as [| [k w] d IH]; intros acc Ha S; simpl; [exact Ha |].
  simpl in S. apply andb_prop in S. destruct S as [Sk S].
  destruct k as [| | | k | |]; try discriminate Sk.
  apply IH; [now apply text_keyed_dict_set | exact S].
Qed.

Lemma update_all_find (x : string) (d : dict) :
  forall acc,
    str_keys acc = true -> text_keyed d ->
    dict_find (VStr x) (update_all acc d) =
      match dict_find (VStr x) d with
      | Some v => Some v
      | None => dict_find (VStr x) acc
      end.
Proof.
  unfold update_all.
  induction d as [| [k w] d IH]; intros acc Sa [S N]; [reflexivity |].
  simpl in S. apply andb_prop in S. destruct S as [Sk S].
  destruct k as [| | | k | |]; try discriminate Sk.
  inversion N as [| ? ? Nin N']; subst.
  cbn [fold_left fst snd].
  rewrite IH; [| now apply str_keys_dict_set | now split].
  cbn [dict_find py_eq].
  destruct (String.eqb_spec x k) as [-> | D].
  - rewrite (dict_find_absent k d S Nin). apply dict_find_set_same.
  - destruct (dict_find (VStr x) d); [reflexivity |].
    now apply dict_find_set_other.
Qed.

Lemma load_files_fold (fs : file_system) (files : list string)
    (ds : list dict) :
  Forall2 (renders_to fs) files ds ->
  forall self,
    fold_left
      (fun acc myfile =>
         self <- acc ;; _load_file_salt_rendered fs self myfile)
      files (Ok self) =
    Ok {| search_paths := search_paths self;
          test_files := test_files self;
          test_dict := fold_left update_all ds (test_dict self) |}.
Proof.
  induction 1 as [| f d files ds [t [R L]] _ IH]; intros self.
  - now destruct self.
  - cbn [fold_left bind]. unfold _load_file_salt_rendered at 2.
    rewrite R. cbn [bind]. rewrite L. cbn [items bind].
    now rewrite IH.
Qed.

Lemma fold_update_all (x : string) (ds : list dict) :
  Forall text_keyed ds ->
  forall acc,
    text_keyed acc ->
    text_keyed (fold_left update_all ds acc) /\
    dict_find (VStr x) (fold_left update_all ds acc) =
      fold_left (fun a d =>
                   match dict_find (VStr x) d with
                   | Some v => Some v
                   | None => a
                   end) ds (dict_find (VStr x) acc).
Proof.
  induction 1 as [| d ds Hd _ IH]; intros acc Ha; [now split |].
  cbn [fold_left].
  destruct (IH (update_all acc d)) as [T F].
  { apply update_all_text_keyed; [exact Ha | apply Hd]. }
  split; [exact T |].
  rewrite F. f_equal. apply update_all_find; [apply Ha | exact Hd].
Qed.

Lemma renders_to_text_keyed (fs : file_system) (files : list string)
    (ds : list dict) :
  Forall2 (renders_to fs) files ds -> Forall text_keyed ds.
Proof.
  induction 1 as [| f d files ds [t [_ L]] _ IH]; constructor; [| exact IH].
  now apply loads_dumps_text_keyed with (1 := L).
Qed.

(** X13: when every test file renders to a mapping, [load_test_suite]
    empties [test_files], keeps [search_paths], and builds [test_dict] anew
    from the files alone: its keys are texts, each once, and a test name
    has the definition that the last file defining it gives; what
    [test_dict] held before is gone. *)
Theorem load_test_suite_last_binding (fs : file_system) (self : loader)
    (ds : list dict) :
  Forall2 (renders_to fs) (test_files self) ds ->
  exists self',
    load_test_suite fs self = Ok self' /\
    test_files self' = [] /\
    search_paths self' = search_paths self /\
    text_keyed (test_dict self') /\
    forall x, dict_find (VStr x) (test_dict self') = last_binding x ds.
Proof.
  intros H. unfold load_test_suite. cbn [test_files search_paths test_dict].
  rewrite (load_files_fold fs _ ds H). cbn [bind test_dict search_paths].
  eexists. split; [reflexivity |]. cbn [test_files search_paths test_dict].
  repeat split; try apply (fold_update_all "" ds);
    try (now apply renders_to_text_keyed with (1 := H));
    try (split; [reflexivity | constructor]).
  intros x.
  destruct (fold_update_all x ds (renders_to_text_keyed fs _ ds H) [])
    as [_ F]; [split; [reflexivity | constructor] |].
  exact F.
Qed.

Lemma load_test_suite_last_binding_witness :
  exists self',
    load_test_suite fs_apache loader_apache_good = Ok self' /\
    test_files self' = [] /\
    search_paths self' = search_paths loader_apache_good /\
    text_keyed (test_dict self') /\
    forall x,
      dict_find (VStr x) (test_dict self') =
        last_binding x [[(VStr "x", VDict [(VStr "skip", VBool true)])]].
Proof.
  apply (load_test_suite_last_binding fs_apache loader_apache_good
           [[(VStr "x", VDict [(VStr "skip", VBool true)])]]).
  repeat constructor.
  exists (VDict [(VStr "x", VDict [(VStr "skip", VBool true)])]).
  split; reflexivity.
Defined.

Lemma load_fold_raise (fs : file_system) (files : list string) (e : exn) :
  fold_left
    (fun acc myfile =>
       self <- acc ;; _load_file_salt_rendered fs self myfile)
    files (Raise e) = Raise e.
Proof. induction files as [| f files IH]; [reflexivity | exact IH]. Qed.

(** X14: the loading stops at the first test file that does not render to
    a mapping: an exception of the renderer propagates, and a rendered
    value that is not a mapping (None for an empty file, a list, a text)
    raises [AttributeError]. *)
Theorem load_test_suite_stops (fs : file_system) (self : loader)
    (pre post : list string) (f : string) (ds : list dict) :
  test_files self = (pre ++ f :: post)%list ->
  Forall2 (renders_to fs) pre ds ->
  match render fs f with
  | Ok (VDict _) => False
  | _ => True
  end ->
  load_test_suite fs self =
    match render fs f with
    | Ok _ => Raise AttributeError
    | Raise e => Raise e
    end.
Proof.
  intros E H B. unfold load_test_suite.
  cbn [test_files search_paths test_dict]. rewrite E, fold_left_app.
  rewrite (load_files_fold fs pre ds H). cbn [fold_left bind].
  unfold _load_file_salt_rendered at 2.
  destruct (render fs f) as [t | e]; cbn [bind].
  - destruct t; try contradiction; cbn [loads_dumps items bind];
      now rewrite load_fold_raise.
  - now rewrite load_fold_raise.
Qed.

Lemma load_test_suite_stops_witness :
  load_test_suite fs_apache loader_apache = Raise AttributeError.
Proof.
  apply (load_test_suite_stops fs_apache loader_apache
           ["/srv/saltcheck-tests/apache.tst"] [] "/srv/empty.tst"
           [[(VStr "x", VDict [(VStr "skip", VBool true)])]]).
  - reflexivity.
  - repeat constructor.
    exists (VDict [(VStr "x", VDict [(VStr "skip", VBool true)])]).
    split; reflexivity.
  - exact I.
Defined.

(** * Properties of the module functions *)

Lemma count_results_fold (r : rows) :
  forall t,
    let t' := fold_left (fun t kv => count_result t (snd kv)) r t in
    passed t' = passed t + count_prefix "Pass" r /\
    failed t' = failed t + count_prefix "Fail" r /\
    skipped t' = skipped t + count_prefix "Skip" r /\
    missing_tests t' = missing_tests t /\
    total_time t' = (total_time t + sum_durations r)%Z.
Proof.
  unfold count_prefix, sum_durations.
  induction r as [| [k v] r IH]; intros t; cbn zeta; cbn [fold_left snd].
  - cbn. repeat split; lia.
  - specialize (IH (count_result t v)). cbn zeta in IH.
    destruct IH as [P [F [K [M T]]]].
    rewrite P, F, K, M, T. cbn [filter snd fold_right].
    unfold count_result. cbn [passed failed skipped missing_tests total_time].
    destruct (prefix "Pass" (status v)), (prefix "Fail" (status v)),
      (prefix "Skip" (status v)); cbn [List.length];
      repeat split; lia.
Qed.

Lemma count_states_fold (res : results) :
  forall t,
    let t' := fold_left count_state res t in
    passed t' = passed t + count_prefix "Pass" (all_rows res) /\
    failed t' = failed t + count_prefix "Fail" (all_rows res) /\
    skipped t' = skipped t + count_prefix "Skip" (all_rows res) /\
    missing_tests t' = missing_tests t + count_missing res /\
    total_time t' = (total_time t + sum_durations (all_rows res))%Z.
Proof.
  induction res as [| [name r] res IH]; intros t; cbn zeta; cbn [fold_left].
  - cbn. repeat split; lia.
  - specialize (IH (count_state t (name, r))). cbn zeta in IH.
    destruct IH as [P [F [K [M T]]]].
    rewrite P, F, K, M, T. clear P F K M T.
    unfold all_rows, count_missing, count_state, count_prefix.
    cbn [flat_map snd filter].
    destruct r as [| kv r].
    + cbn. repeat split; lia.
    + destruct (count_results_fold (kv :: r) t) as [P [F [K [M T]]]].
      rewrite P, F, K, M, T. unfold count_prefix, sum_durations.
      rewrite !filter_app, !length_app, fold_right_app.
      cbn [List.length].
      assert (A : forall (l1 l2 : rows),
                 fold_right (fun kv t => (duration (snd kv) + t)%Z)
                   (fold_right (fun kv t => (duration (snd kv) + t)%Z) 0%Z l2)
                   l1 =
                 (fold_right (fun kv t => (duration (snd kv) + t)%Z) 0%Z l1 +
                  fold_right (fun kv t => (duration (snd kv) + t)%Z) 0%Z l2)%Z).
      { intros l1 l2. induction l1 as [| x l1 IHl]; cbn [fold_right];
          [reflexivity | rewrite IHl; lia]. }
      rewrite A. repeat split; lia.
Qed.

Lemma generate_out_list_summary_aux (res : results) :
  exists t,
    _generate_out_list res =
      (map (fun kv => StateResults (fst kv) (snd kv)) (sort_states res)
       ++ [TestResults t])%list /\
    passed t = count_prefix "Pass" (all_rows res) /\
    failed t = count_prefix "Fail" (all_rows res) /\
    skipped t = count_prefix "Skip" (all_rows res) /\
    missing_tests t = count_missing res /\
    total_time t = sum_durations (all_rows res).
Proof.
  eexists. split; [reflexivity |].
  exact (count_states_fold res no_totals).
Qed.

(** X15: the summary [_generate_out_list] puts at the end of its list
    counts, over all the states, the results whose status begins with
    "Pass", with "Fail" and with "Skip"; "Missing Tests" counts the states
    that have no result, and the execution time adds up the durations. *)
Theorem generate_out_list_summary (res : results) :
  exists t,
    _generate_out_list res =
      (map (fun kv => StateResults (fst kv) (snd kv)) (sort_states res)
       ++ [TestResults t])%list /\
    passed t = count_prefix "Pass" (all_rows res) /\
    failed t = count_prefix "Fail" (all_rows res) /\
    skipped t = count_prefix "Skip" (all_rows res) /\
    missing_tests t = count_missing res /\
    total_time t = sum_durations (all_rows res).
Proof.
  eexists. split; [reflexivity |].
  exact (count_states_fold res no_totals).
Qed.

Lemma insert_state_perm (x : string * rows) (l : results) :
  Permutation (insert_state x l) (x :: l).
Proof.
  induction l as [| y l IH]; simpl; [apply Permutation_refl |].
  destruct (String.leb (fst x) (fst y)); [apply Permutation_refl |].
  apply perm_trans with (y :: x :: l); [now apply perm_skip | apply perm_swap].
Qed.

Lemma sort_states_perm (l : results) : Permutation (sort_states l) l.
Proof.
  induction l as [| x l IH]; simpl; [apply perm_nil |].
  apply perm_trans with (x :: sort_states l);
    [apply insert_state_perm | now apply perm_skip].
Qed.

Lemma insert_state_sorted (x : string * rows) (l : results) :
  StronglySorted state_leb l -> StronglySorted state_leb (insert_state x l).
Proof.
  induction 1 as [| y l Hl IH Hy]; simpl.
  - repeat constructor.
  - destruct (String.leb (fst x) (fst y)) eqn:E.
    + constructor; [now constructor |].
      constructor; [exact E |].
      apply Forall_impl with (2 := Hy). intros z.
      unfold state_leb. now apply leb_prop_trans.
    + constructor; [exact IH |].
      apply Permutation_Forall with (x :: l);
        [apply Permutation_sym, insert_state_perm |].
      constructor; [| exact Hy].
      destruct (String.leb_total (fst x) (fst y)) as [T | T];
        [congruence | exact T].
Qed.

(** X16: the list [_generate_out_list] returns holds every state of the
    results once, in increasing order of the state names, and the summary
    after them. *)
Theorem generate_out_list_sorted (res : results) :
  exists sorted t,
    _generate_out_list res =
      (map (fun kv => StateResults (fst kv) (snd kv)) sorted
       ++ [TestResults t])%list /\
    Permutation sorted res /\
    StronglySorted state_leb sorted.
Proof.
  exists (sort_states res). eexists. split; [reflexivity |].
  split; [apply sort_states_perm |].
  induction res as [| x res IH]; simpl;
    [constructor | now apply insert_state_sorted].
Qed.

(** ** The results of the tests of a state *)

Lemma status_shape_counted (s : string) :
  status_shape s ->
  (if prefix "Pass" s then 1 else 0) + (if prefix "Fail" s then 1 else 0)
  + (if prefix "Skip" s then 1 else 0) = 1.
Proof.
  intros [-> | [-> | [-> | [msg ->]]]]; reflexivity.
Qed.

Lemma shaped_counted (r : rows) :
  shaped r ->
  count_prefix "Pass" r + count_prefix "Fail" r + count_prefix "Skip" r
  = List.length r.
Proof.
  unfold count_prefix.
  induction 1 as [| [k v] r Hv _ IH]; [reflexivity |].
  apply status_shape_counted in Hv. cbn [filter snd] in *.
  destruct (prefix "Pass" (status v)), (prefix "Fail" (status v)),
    (prefix "Skip" (status v)); cbn [List.length] in *; lia.
Qed.

Lemma run_test_value_shape (env : salt_env) (v : value) (start end_ : Z)
    (r : test_result) :
  run_test_value env v start end_ = Ok r -> status_shape (status r).
Proof.
  destruct v; try discriminate. apply run_test_status_shape.
Qed.

Lemma rows_set_shaped (k : value) (r : test_result) (d : rows) :
  status_shape (status r) -> shaped d -> shaped (rows_set k r d).
Proof.
  intros Hr. induction 1 as [| [k0 r0] d H0 Hd IH]; simpl.
  - apply Forall_cons; [exact Hr | apply Forall_nil].
  - destruct (py_eq k k0); apply Forall_cons; assumption.
Qed.

Lemma run_items_shaped (env : salt_env) (clock : nat -> Z * Z)
    (items : dict) :
  forall n acc out n',
    shaped acc ->
    run_items env clock items n acc = Ok (out, n') -> shaped out.
Proof.
  induction items as [| [k v] items IH]; intros n acc out n' Ha;
    cbn [run_items].
  - now intros [= <- _].
  - destruct (run_test_value env v (fst (clock n)) (snd (clock n)))
      as [r |] eqn:R; cbn [bind]; [| discriminate].
    apply IH. apply rows_set_shaped; [| exact Ha].
    now apply run_test_value_shape with (1 := R).
Qed.

Lemma results_set_shaped (name : string) (r : rows) (res : results) :
  shaped r -> Forall (fun st => shaped (snd st)) res ->
  Forall (fun st => shaped (snd st)) (results_set name r res).
Proof.
  intros Hr. induction 1 as [| [k0 r0] res H0 Hres IH]; simpl.
  - apply Forall_cons; [exact Hr | apply Forall_nil].
  - destruct (String.eqb name k0); apply Forall_cons; assumption.
Qed.

Lemma run_states_shaped (h : host) (env : salt_env) (check_all : bool)
    (sls_list : list value) :
  forall stl res,
    run_states h env check_all stl sls_list = Ok res ->
    Forall (fun st => shaped (snd st)) res.
Proof.
  unfold run_states. intros stl.
  assert (G : forall acc out,
             Forall (fun st => shaped (snd st)) (snd (fst acc)) ->
             fold_left (fun acc state_name =>
                          a <- acc ;; run_state h env check_all a state_name)
               sls_list (Ok acc) = Ok out ->
             Forall (fun st => shaped (snd st)) (snd (fst out))).
  { induction sls_list as [| name sls IH]; intros acc out Ha;
      cbn [fold_left bind].
    - now intros [= <-].
    - destruct (run_state h env check_all acc name) as [acc' |] eqn:R.
      + apply IH. destruct acc as [[stl0 res0] n0].
        unfold run_state in R. destruct name; try discriminate R.
        destruct (load_test_suite _ _) as [stl1 |]; cbn [bind] in R;
          [| discriminate R].
        destruct (run_items _ _ _ _ _) as [[out1 n1] |] eqn:I;
          cbn [bind] in R; [| discriminate R].
        injection R as <-. cbn [fst snd] in *.
        apply results_set_shaped; [| exact Ha].
        apply run_items_shaped with (2 := I). constructor.
      + intros F. exfalso. clear - F.
        induction sls as [| x sls IHs]; [discriminate F | exact (IHs F)]. }
  intros res.
  match goal with
  | |- bind ?c _ = _ -> _ => destruct c as [acc |] eqn:F
  end; cbn [bind]; [| discriminate].
  intros [= <-]. apply (G (stl, [], 0) acc); [constructor | exact F].
Qed.

Lemma all_rows_shaped (res : results) :
  Forall (fun st => shaped (snd st)) res -> shaped (all_rows res).
Proof.
  unfold all_rows, shaped.
  induction 1 as [| st res H _ IH]; simpl; [constructor |].
  apply Forall_app. now split.
Qed.

(** X17: in the list [run_state_tests] or [run_highstate_tests] returns,
    every result of every state is counted once in the summary: "Passed",
    "Failed" and "Skipped" add up to the number of results, and "Missing
    Tests" is the number of states without results. *)
Theorem runners_count_every_result (h : host) (state saltenv : value)
    (check_all : bool) (out : list out_item) :
  run_state_tests h state saltenv check_all = Ok out \/
  run_highstate_tests h saltenv check_all = Ok out ->
  exists res t,
    out =
      (map (fun kv => StateResults (fst kv) (snd kv)) (sort_states res)
       ++ [TestResults t])%list /\
    passed t + failed t + skipped t = List.length (all_rows res) /\
    missing_tests t = count_missing res.
Proof.
  assert (G : forall res,
             Forall (fun st => shaped (snd st)) res ->
             exists res0 t,
               _generate_out_list res =
                 (map (fun kv => StateResults (fst kv) (snd kv))
                    (sort_states res0) ++ [TestResults t])%list /\
               passed t + failed t + skipped t = List.length (all_rows res0) /\
               missing_tests t = count_missing res0).
  { intros res Hres.
    destruct (generate_out_list_summary_aux res) as [t [E [P [F [K [M _]]]]]].
    exists res, t. split; [exact E |]. split; [| exact M].
    rewrite P, F, K. apply shaped_counted. now apply all_rows_shaped. }
  intros [H | H].
  - unfold run_state_tests in H.
    destruct (settle_saltenv h saltenv) as [env0 |]; cbn [bind] in H;
      [| discriminate H].
    destruct (new_saltcheck h env0) as [scheck |]; cbn [bind] in H;
      [| discriminate H].
    destruct (get_state_search_path_list h env0) as [paths |];
      cbn [bind] in H; [| discriminate H].
    destruct (split_input h state) as [sls |]; cbn [bind] in H;
      [| discriminate H].
    destruct (run_states h scheck check_all (init paths) sls) as [res |] eqn:R;
      cbn [bind] in H; [| discriminate H].
    injection H as <-. apply G. now apply run_states_shaped with (1 := R).
  - unfold run_highstate_tests in H.
    destruct (settle_saltenv h saltenv) as [env0 |]; cbn [bind] in H;
      [| discriminate H].
    destruct (new_saltcheck h env0) as [scheck |]; cbn [bind] in H;
      [| discriminate H].
    destruct (get_state_search_path_list h env0) as [paths |];
      cbn [bind] in H; [| discriminate H].
    destruct (_get_top_states h env0) as [sls |]; cbn [bind] in H;
      [| discriminate H].
    destruct (run_states h scheck check_all (init paths) (all_states_of sls))
      as [res |] eqn:R; cbn [bind] in H; [| discriminate H].
    injection H as <-. apply G. now apply run_states_shaped with (1 := R).
Qed.

Lemma runners_count_every_result_witness :
  exists out,
    run_state_tests host_apache (VStr "apache") VNone false = Ok out /\
    exists res t,
      out =
        (map (fun kv => StateResults (fst kv) (snd kv)) (sort_states res)
         ++ [TestResults t])%list /\
      passed t + failed t + skipped t = List.length (all_rows res) /\
      missing_tests t = count_missing res.
Proof.
  eexists. split; [vm_compute; reflexivity |].
  apply (runners_count_every_result host_apache (VStr "apache") VNone false).
  left. vm_compute. reflexivity.
Defined.

Lemma rows_set_fresh (k : string) (r : test_result) (acc : rows) :
  str_keys (map (fun kv => (fst kv, VNone)) acc) = true ->
  ~ In (VStr k) (map fst acc) ->
  rows_set (VStr k) r acc = (acc ++ [(VStr k, r)])%list.
Proof.
  induction acc as [| [k0 r0] acc IH]; simpl; intros S N; [reflexivity |].
  apply andb_prop in S. destruct S as [S0 S].
  destruct k0 as [| | | s | |]; try discriminate S0.
  destruct (String.eqb_spec k s) as [-> | D].
  - exfalso. apply N. now left.
  - rewrite IH; [reflexivity | exact S |]. intros F. apply N. now right.
Qed.

Lemma run_items_rows_from (env : salt_env) (clock : nat -> Z * Z)
    (items : dict) :
  forall n acc out n',
    str_keys items = true ->
    str_keys (map (fun kv => (fst kv, VNone)) acc) = true ->
    NoDup (map fst acc ++ dict_keys items)%list ->
    run_items env clock items n acc = Ok (out, n') ->
    n' = n + List.length items /\
    exists produced,
      out = (acc ++ produced)%list /\
      List.length produced = List.length items /\
      forall i k v,
        nth_error items i = Some (k, v) ->
        exists r,
          nth_error produced i = Some (k, r) /\
          run_test_value env v (fst (clock (n + i))) (snd (clock (n + i)))
            = Ok r.
Proof.
  induction items as [| [k v] items IH]; intros n acc out n' Si Sa N;
    cbn [run_items].
  - intros [= <- <-]. split; [simpl; lia |].
    exists []. rewrite app_nil_r. repeat split.
    intros [| i] k v H; discriminate H.
  - simpl in Si. apply andb_prop in Si. destruct Si as [Sk Si].
    destruct k as [| | | k | |]; try discriminate Sk.
    destruct (run_test_value env v (fst (clock n)) (snd (clock n)))
      as [r |] eqn:R; cbn [bind]; [| discriminate].
    rewrite rows_set_fresh; [| exact Sa |].
    2:{ intros F. simpl in N. apply NoDup_remove_2 in N.
        apply N, in_or_app. now left. }
    intros H. apply IH in H; [| exact Si | |].
    + destruct H as [-> [produced [-> [L P]]]].
      split; [simpl; lia |].
      exists ((VStr k, r) :: produced). rewrite <- app_assoc.
      split; [reflexivity |]. split; [simpl; now rewrite L |].
      intros [| i] k' v' Hi; cbn [nth_error] in *.
      * injection Hi as <- <-. exists r. rewrite Nat.add_0_r. now split.
      * destruct (P i k' v' Hi) as [r' [H1 H2]]. exists r'.
        split; [exact H1 |].
        now replace (n + S i) with (S n + i) by lia.
    + rewrite map_app, str_keys_app, Sa. reflexivity.
    + rewrite map_app. simpl. rewrite <- app_assoc. exact N.
Qed.

(** X18: for the tests of a state as [load_test_suite] leaves them, keyed
    by texts that are each there once, the results hold one row for each
    test, under the name of the test and in the order of the tests; the
    row of the test at place [i] is the record [run_test] returns for its
    definition at the call number [n + i]. *)
Theorem run_items_rows (env : salt_env) (clock : nat -> Z * Z)
    (items : dict) (n n' : nat) (out : rows) :
  text_keyed items ->
  run_items env clock items n [] = Ok (out, n') ->
  n' = n + List.length items /\
  List.length out = List.length items /\
  forall i k v,
    nth_error items i = Some (k, v) ->
    exists r,
      nth_error out i = Some (k, r) /\
      run_test_value env v (fst (clock (n + i))) (snd (clock (n + i)))
        = Ok r.
Proof.
  intros [Si N] H.
  destruct (run_items_rows_from env clock items n [] out n' Si eq_refl N H)
    as [E [produced [-> [L P]]]].
  split; [exact E |]. split; [exact L | exact P].
Qed.

Lemma run_items_rows_witness :
  2 = 0 + List.length tests_apache /\
  List.length
    [(VStr "echo_test_hello", {| status := "Pass"; duration := 2 |});
     (VStr "skipped", {| status := "Skip"; duration := 0 |})]
  = List.length tests_apache /\
  forall i k v,
    nth_error tests_apache i = Some (k, v) ->
    exists r,
      nth_error
        [(VStr "echo_test_hello", {| status := "Pass"; duration := 2 |});
         (VStr "skipped", {| status := "Skip"; duration := 0 |})] i
        = Some (k, r) /\
      run_test_value env_echo v (fst (now host_apache (0 + i)))
        (snd (now host_apache (0 + i))) = Ok r.
Proof.
  apply (run_items_rows env_echo (now host_apache) tests_apache 0 2).
  - split; [reflexivity |].
    repeat constructor; simpl; intuition discriminate.
  - vm_compute. reflexivity.
Defined.

(** X19: a test whose run raises ends the loop over the tests of the
    state with that exception, whatever the tests before it returned and
    whatever comes after it: no result of the state is kept. *)
Theorem run_items_aborts (env : salt_env) (clock : nat -> Z * Z)
    (pre post : dict) (k v : value) (e : exn) :
  forall n acc,
    (forall i k' v',
        nth_error pre i = Some (k', v') ->
        exists r,
          run_test_value env v' (fst (clock (n + i))) (snd (clock (n + i)))
            = Ok r) ->
    run_test_value env v (fst (clock (n + List.length pre)))
      (snd (clock (n + List.length pre))) = Raise e ->
    run_items env clock (pre ++ (k, v) :: post)%list n acc = Raise e.
Proof.
  induction pre as [| [k0 v0] pre IH]; intros n acc Hpre Hv;
    cbn [app run_items].
  - simpl in Hv. rewrite Nat.add_0_r in Hv. now rewrite Hv.
  - destruct (Hpre 0 k0 v0 eq_refl) as [r R].
    rewrite Nat.add_0_r in R. rewrite R. cbn [bind].
    apply IH.
    + intros i k' v' Hi. destruct (Hpre (S i) k' v' Hi) as [r' R'].
      exists r'. now replace (S n + i) with (n + S i) by lia.
    + now replace (S n + List.length pre)
        with (n + List.length ((k0, v0) :: pre)) by (simpl; lia).
Qed.

Lemma run_items_aborts_witness :
  run_items env_echo (now host_apache)
    ([(VStr "echo_test_hello", VDict echo_test_hello)]
     ++ (VStr "in_number", VDict membership_in_number)
        :: [(VStr "skipped", VDict [(VStr "skip", VBool true)])])%list
    0 [] = Raise TypeError.
Proof.
  apply (run_items_aborts env_echo (now host_apache)
           [(VStr "echo_test_hello", VDict echo_test_hello)]
           [(VStr "skipped", VDict [(VStr "skip", VBool true)])]
           (VStr "in_number") (VDict membership_in_number) TypeError 0 []).
  - intros [| [| i]] k' v' H; try discriminate H.
    injection H as <- <-. eexists. vm_compute. reflexivity.
  - vm_compute. reflexivity.
Defined.

(** ** The states of the highstate *)

Lemma all_states_fold (names : list string) :
  forall seen,
    NoDup seen ->
    exists uniq,
      fold_left (fun all_states state =>
                   if in_list state all_states then all_states
                   else (all_states ++ [state])%list)
        (map VStr names) (map VStr seen) = map VStr uniq /\
      NoDup uniq /\
      (forall x, In x uniq <-> In x seen \/ In x names).
Proof.
  induction names as [| name names IH]; intros seen N; cbn [map fold_left].
  - exists seen. split; [reflexivity |]. split; [exact N |].
    intros x. simpl. tauto.
  - assert (M : in_list (VStr name) (map VStr seen) = true <-> In name seen).
    { unfold in_list. rewrite existsb_exists. split.
      - intros [y [Hy E]]. apply in_map_iff in Hy.
        destruct Hy as [z [<- Hz]]. simpl in E.
        apply String.eqb_eq in E. now subst.
      - intros H. exists (VStr name). split; [now apply in_map |].
        simpl. apply String.eqb_refl. }
    destruct (in_list (VStr name) (map VStr seen)) eqn:E.
    + destruct (IH seen N) as [uniq [F [U I]]].
      exists uniq. split; [exact F |]. split; [exact U |].
      intros x. rewrite I. simpl.
      assert (In name seen) by now apply M. intuition (subst; auto).
    + change (map VStr seen ++ [VStr name])%list
        with (map VStr seen ++ map VStr [name])%list.
      rewrite <- map_app.
      destruct (IH (seen ++ [name])%list) as [uniq [F [U I]]].
      * apply Permutation_NoDup with (name :: seen).
        -- apply Permutation_cons_append.
        -- constructor; [| exact N]. intros H. apply M in H. discriminate H.
      * exists uniq. split; [exact F |]. split; [exact U |].
        intros x. rewrite I, in_app_iff. simpl. tauto.
Qed.

(** X20: of the state names [state.show_top] lists, [run_highstate_tests]
    keeps each once: the states it runs are the names listed, without
    repetition. *)
Theorem all_states_once (names : list string) :
  exists uniq,
    all_states_of (map VStr names) = map VStr uniq /\
    NoDup uniq /\
    (forall x, In x uniq <-> In x names).
Proof.
  destruct (all_states_fold names [] (NoDup_nil _)) as [uniq [F [U I]]].
  exists uniq. split; [exact F |]. split; [exact U |].
  intros x. rewrite I. simpl. tauto.
Qed.

(** * Further properties of the validator and of the verdicts *)

(** X21: a skipped test whose validation returns gets the record "Skip"
    with the duration 0: the threshold of a skipped test is 0, which every
    score meets, and the operation is not called. *)
Theorem skipped_test_is_skipped (env : salt_env) (td : test_def)
    (start end_ : Z) (valid : bool) :
  truthy (get td "skip" (VBool false)) = true ->
  __is_valid_test env td = Ok valid ->
  run_test env td start end_ = Ok {| status := "Skip"; duration := 0 |}.
Proof.
  intros Hs Hv. rewrite run_test_steps.
  assert (valid = true) as ->.
  { unfold __is_valid_test in Hv. rewrite Hs in Hv.
    split_validity Hv; now injection Hv as <-. }
  rewrite Hv. cbn [bind]. now rewrite Hs.
Qed.

Lemma skipped_test_is_skipped_witness :
  run_test env_echo skipped_test 10 25 =
    Ok {| status := "Skip"; duration := 0 |}.
Proof.
  apply (skipped_test_is_skipped env_echo skipped_test 10 25 true);
    reflexivity.
Defined.

(** X22: a test that is not skipped passes the validator when its
    operation name splits into a module and a function the collaborator
    both knows, its assertion is one of the twelve, and either the
    assertion is one of the four without expectation or expected-return is
    present and not null. *)
Theorem known_operation_is_valid (env : salt_env) (td : test_def)
    (m f : string) :
  truthy (get td "skip" (VBool false)) = false ->
  split_m_and_f (get td "module_and_function" VNone) = Ok (m, f) ->
  _is_valid_module env m = Ok true ->
  _is_valid_function env m f = Ok true ->
  in_list (get td "assertion" VNone) assertions_list = true ->
  in_list (get td "assertion" VNone) no_expectation = true \/
  (dict_has (VStr "expected-return") td = true /\
   is_None (get td "expected-return" VNone) = false) ->
  __is_valid_test env td = Ok true.
Proof.
  intros Hs Hm Hmod Hfun Ha He. unfold __is_valid_test.
  rewrite Hs, (split_m_and_f_truthy _ m f Hm), Hm. cbn [bind fst snd].
  rewrite Hmod, Hfun, Ha. cbn [bind Z.b2z].
  unfold no_expectation in He.
  destruct He as [He | [Hk Hn]].
  - rewrite He.
    repeat match goal with
           | |- context [if ?c then _ else _] => destruct c
           end; reflexivity.
  - rewrite Hk, Hn.
    repeat match goal with
           | |- context [if ?c then _ else _] => destruct c
           end; reflexivity.
Qed.

Lemma known_operation_is_valid_witness :
  __is_valid_test env_echo echo_not_empty = Ok true.
Proof.
  apply (known_operation_is_valid env_echo echo_not_empty "test" "echo");
    try reflexivity.
  left. reflexivity.
Defined.

(** X23: assertTrue passes on the boolean True alone, and assertFalse on
    the boolean False and on the empty text alone: the numbers 1 and 0,
    None and every other text fail them. *)
Theorem boolean_assertions (actual : value) :
  (__assert_true actual = Ok "Pass" <-> actual = VBool true) /\
  (__assert_false actual = Ok "Pass" <->
   actual = VBool false \/ actual = VStr "").
Proof.
  unfold __assert_true, __assert_false. split; split.
  - destruct actual as [| [|] | | | |]; simpl; try discriminate.
    reflexivity.
  - now intros ->.
  - destruct actual as [| [|] | | s | |]; simpl; try discriminate; auto.
    destruct (String.eqb_spec s "") as [-> | _]; simpl;
      [auto | discriminate].
  - intros [-> | ->]; reflexivity.
Qed.

(** ** The module function [run_test] *)

(** X25: when the instance can be built, the module function [run_test]
    answers the text "Test must be a dictionary" exactly when [test] is
    not a mapping with at least one key: for None, for a text, and for the
    empty mapping too. *)
Theorem run_test_function_text (h : host) (env : salt_env) (test : value)
    (start end_ : Z) :
  new_saltcheck h (VStr "base") = Ok env ->
  (run_test_function h test start end_ = Ok (Text "Test must be a dictionary")
   <-> forall kv td, test <> VDict (kv :: td)).
Proof.
  intros H. unfold run_test_function. rewrite H. cbn [bind]. split.
  - intros E kv td ->. cbn [truthy] in E.
    destruct (run_test env (kv :: td) start end_); discriminate E.
  - intros N. destruct test as [| | | | | [| kv td]]; try reflexivity.
    exfalso. now apply (N kv td).
Qed.

Lemma run_test_function_text_witness :
  run_test_function host_apache (VDict []) 10 25
    = Ok (Text "Test must be a dictionary")
  <-> forall kv td, VDict [] <> VDict (kv :: td).
Proof.
  apply (run_test_function_text host_apache env_echo (VDict []) 10 25).
  reflexivity.
Defined.
